(** * codescan-ai: the mock analyzer and the [POST /analyze] route

    A shallow embedding of

    - [frontend/src/api/analyze.ts] (second variant, the in-browser mock
      [analyzeCode] that scores a text with three substring rules, and
      first variant, the client that posts the code to [/api/analyze]),
    - [frontend/dist/api/analyze/route.ts] (the edge handler [POST] that
      forwards the code to a generative-text endpoint and extracts a JSON
      object from the reply), and
    - the score display of the page (the gauge's colour and label, the
      colour of the printed score, the severity counts of the issue
      summary),

    followed by the properties of each that the specification states or
    the code shows. *)

From Stdlib Require Import List ZArith Bool Lia String Ascii.
From Stdlib Require Import DecimalString PrimFloat SpecFloat FloatOps.
Import ListNotations.
Local Open Scope Z_scope.

(* ================================================================== *)
(** ** JavaScript strings and the built-ins the two files call *)
(* ================================================================== *)

Module JS.

(** A JavaScript string is a finite sequence of UTF-16 code units.  Code
    units are kept as numbers, so every JavaScript string has a model. *)
Definition codeunit := N.
Definition jsstring := list codeunit.

(** A source-code literal, character by character. *)
Definition js (s : string) : jsstring :=
  map N_of_ascii (list_ascii_of_string s).

(** Line feed, double quote, opening and closing brace. *)
Definition NL : codeunit := 10%N.
Definition DQUOTE : codeunit := 34%N.
Definition LBRACE : codeunit := 123%N.
Definition RBRACE : codeunit := 125%N.

(** [a === b] on strings. *)
Fixpoint str_eqb (a b : jsstring) : bool :=
  match a, b with
  | [], [] => true
  | c :: a', d :: b' => N.eqb c d && str_eqb a' b'
  | _, _ => false
  end.

(** [s.startsWith(p)]: the matching step of [includes] at one position. *)
Fixpoint startsWith (s p : jsstring) {struct p} : bool :=
  match p, s with
  | [], _ => true
  | _ :: _, [] => false
  | c :: p', d :: s' => N.eqb c d && startsWith s' p'
  end.

(** [s.includes(sub)]: [sub] occurs at some position of [s]. *)
Fixpoint includes (s sub : jsstring) : bool :=
  startsWith s sub ||
  match s with
  | [] => false
  | _ :: s' => includes s' sub
  end.

(** [s.split(sep)] for a one-code-unit separator: the pieces between the
    separators, in order; a text without separator is its only piece (the
    empty text gives one empty piece). *)
Fixpoint split (s : jsstring) (sep : codeunit) : list jsstring :=
  match s with
  | [] => [ [] ]
  | c :: s' =>
      if N.eqb c sep then [] :: split s' sep
      else match split s' sep with
           | [] => [ [c] ]
           | piece :: pieces => (c :: piece) :: pieces
           end
  end.

(** [arr.findIndex(p)]: the index of the first element satisfying [p],
    [-1] when there is none. *)
Fixpoint findIndex_from {A : Type} (p : A -> bool) (l : list A) (i : Z) : Z :=
  match l with
  | [] => -1
  | x :: l' => if p x then i else findIndex_from p l' (i + 1)
  end.

Definition findIndex {A : Type} (p : A -> bool) (l : list A) : Z :=
  findIndex_from p l 0.

(** The code units [String.prototype.trim] removes: white space and line
    terminators. *)
Definition is_whitespace (c : codeunit) : bool :=
  existsb (N.eqb c)
    [9; 10; 11; 12; 13; 32; 160; 5760; 8192; 8193; 8194; 8195; 8196; 8197; 8198;
     8199; 8200; 8201; 8202; 8232; 8233; 8239; 8287; 12288; 65279]%N.

(** [s.length]. *)
Definition length (s : jsstring) : Z := Z.of_nat (List.length s).

(** The decimal rendering of a small non-negative integer, as a template
    literal inserts it. *)
Definition decimal (n : nat) : jsstring :=
  js (NilEmpty.string_of_uint (Nat.to_uint n)).

End JS.
Import JS.

(* ================================================================== *)
(** ** [frontend/src/api/analyze.ts]: the mock analyzer *)
(* ================================================================== *)

Module Mock.

Inductive Severity := error | warning | info.

(** The element type of [AnalysisResult.issues]. *)
Record Issue := mkIssue {
  line : Z;
  severity : Severity;
  message : jsstring;
  type : jsstring;
  suggestion : option jsstring
}.

(** The label sets of the four metrics.  [complexity] has its own; the
    other three draw from one scale, of which [maintainability] and
    [performance] exclude [Critical]. *)
Inductive Complexity := Low | Medium | High.
Inductive Rating := Critical | Poor | Fair | Good | Excellent.

Record Metrics := mkMetrics {
  complexity : Complexity;
  maintainability : Rating;
  security : Rating;
  performance : Rating
}.

Record AnalysisResult := mkResult {
  score : Z;
  issues : list Issue;
  metrics : Metrics;
  summary : jsstring;
  analysisTime : float
}.

(** The three [if] blocks of [analyzeCode], threading the two locals
    [issues] and [score]. *)
Definition rule_sql (code : jsstring) (st : list Issue * Z) : list Issue * Z :=
  let '(issues, score) := st in
  if includes code (js "SELECT") && includes code (js "+") then
    (issues ++
       [ {| line := findIndex (fun line => includes line (js "SELECT")
                                           && includes line (js "+"))
                              (split code NL) + 1;
            severity := error;
            message := js "SQL injection vulnerability detected";
            type := js "Security";
            suggestion := Some (js "Use parameterized queries or prepared statements") |} ],
     score - 25)
  else st.

Definition rule_eval (code : jsstring) (st : list Issue * Z) : list Issue * Z :=
  let '(issues, score) := st in
  if includes code (js "eval(") then
    (issues ++
       [ {| line := findIndex (fun line => includes line (js "eval"))
                              (split code NL) + 1;
            severity := error;
            message := js "Use of eval() function is dangerous";
            type := js "Security";
            suggestion := Some (js "Avoid eval() and use safer alternatives") |} ],
     score - 20)
  else st.

Definition rule_console (code : jsstring) (st : list Issue * Z) : list Issue * Z :=
  let '(issues, score) := st in
  if includes code (js "console.log") then
    (issues ++
       [ {| line := findIndex (fun line => includes line (js "console.log"))
                              (split code NL) + 1;
            severity := warning;
            message := js "Console.log statements should be removed in production";
            type := js "Best Practice";
            suggestion := Some (js "Remove or replace with proper logging") |} ],
     score - 5)
  else st.

(** The locals [(issues, score)] when control reaches the [return]. *)
Definition run_rules (code : jsstring) : list Issue * Z :=
  rule_console code (rule_eval code (rule_sql code ([], 85))).

(** [analyzeCode(code, language)]: the value the returned promise resolves
    to (the 1500 ms timer before it only delays the result).  [language]
    is accepted and never read. *)
Definition analyzeCode (code : jsstring) (language : jsstring) : AnalysisResult :=
  let '(issues, score) := run_rules code in
  {| score := Z.max 0 score;
     issues := issues;
     metrics :=
       {| complexity := if length code >? 500 then High
                        else if length code >? 200 then Medium else Low;
          maintainability := if score >? 70 then Good
                             else if score >? 50 then Fair else Poor;
          security :=
            if Z.of_nat (List.length
                           (filter (fun i => str_eqb (type i) (js "Security")) issues)) >? 0
            then Poor else Good;
          performance := Good |};
     summary := js "Analysis complete. Found " ++ decimal (List.length issues)
                ++ js " issues requiring attention.";
     analysisTime := 1.5%float |}.

End Mock.

(* ================================================================== *)
(** ** [frontend/dist/api/analyze/route.ts]: the [POST] handler *)
(* ================================================================== *)

Module Route.

(** *** Values *)

(** The values [JSON.parse] produces.  Numbers are IEEE-754 doubles; an
    object is the list of its own properties. *)
#[local] Unset Elimination Schemes.
Inductive Json :=
| JNull
| JBool (b : bool)
| JNum (n : float)
| JStr (s : jsstring)
| JArr (items : list Json)
| JObj (fields : list (jsstring * Json)).
#[local] Set Elimination Schemes.

(** What a variable of the handler may hold: a JSON value, or [undefined]
    ([None]). *)
Definition value := option Json.

(** The exceptions that can be raised inside the [try] block. *)
Inductive Exn := SyntaxError | TypeError | NetworkError.

(** *** The platform and the outside world *)

(** Built-ins of the runtime the handler calls and this repository does
    not define: [JSON.parse] ([None] when it throws a [SyntaxError]),
    [JSON.stringify], and the string conversion a template literal applies
    to a value that is not a string ([None] when it throws a [TypeError],
    as it does on an object whose own [toString] is not callable). *)
Record Platform := mkPlatform {
  JSON_parse : jsstring -> option Json;
  JSON_stringify : Json -> jsstring;
  ToString : Json -> option jsstring
}.

Record FetchRequest := mkFetchRequest {
  url : jsstring;
  method : jsstring;
  headers : list (jsstring * jsstring);
  body : jsstring
}.

(** The upstream [Response] as far as the handler reads it: [response.ok]
    and the body that [response.text()] and [response.json()] consume. *)
Record FetchResponse := mkFetchResponse {
  ok : bool;
  text : jsstring
}.

(** [process.env.GEMINI_API_KEY], and the upstream service as an oracle:
    what [fetch] gives for a request ([None] when the promise rejects). *)
Record World := mkWorld {
  GEMINI_API_KEY : option jsstring;
  fetch : FetchRequest -> option FetchResponse
}.

(** The handler's observable effects, in order. *)
Inductive Event :=
| Fetched (req : FetchRequest)
| ConsoleError (label : jsstring) (detail : jsstring + Exn).

(** [NextResponse.json(payload, { status })]. *)
Record Response := mkResponse {
  payload : Json;
  status : Z
}.

(** *** Computations of the [try] block: an effect trace and either an
    exception or a result *)

Definition M (A : Type) : Type := list Event * (Exn + A).

Definition ret {A : Type} (a : A) : M A := ([], inr a).
Definition throw {A : Type} (e : Exn) : M A := ([], inl e).
Definition emit (ev : Event) : M unit := ([ev], inr tt).

Definition bind {A B : Type} (m : M A) (k : A -> M B) : M B :=
  match m with
  | (t, inl e) => (t, inl e)
  | (t, inr a) => let '(t', r) := k a in (t ++ t', r)
  end.

Notation "x <- m ;; k" := (bind m (fun x => k))
  (at level 61, m at next level, right associativity).
Notation "m ;;; k" := (bind m (fun _ => k))
  (at level 61, right associativity).

(** *** Operators of the language *)

(** [!v] is [negb (truthy v)]. *)
Definition truthy (v : value) : bool :=
  match v with
  | None | Some JNull => false
  | Some (JBool b) => b
  | Some (JNum n) => negb (PrimFloat.eqb n 0%float || PrimFloat.is_nan n)
  | Some (JStr s) => match s with [] => false | _ :: _ => true end
  | Some (JArr _) | Some (JObj _) => true
  end.

Fixpoint own (k : jsstring) (fields : list (jsstring * Json)) : value :=
  match fields with
  | [] => None
  | (k', v) :: rest => if str_eqb k k' then Some v else own k rest
  end.

(** The property [k] of a parsed value, for a name [k] no built-in
    prototype defines (all six names the handler reads are such): the own
    property of an object, [undefined] on any other value. *)
Definition prop (v : Json) (k : jsstring) : value :=
  match v with
  | JObj fields => own k fields
  | _ => None
  end.

(** [v.k], and [k] bound by the destructuring of [v]: reading a property
    of [null] throws a [TypeError]. *)
Definition member (v : Json) (k : jsstring) : M value :=
  match v with
  | JNull => throw TypeError
  | _ => ret (prop v k)
  end.

(** [v?.k]. *)
Definition opt_member (v : value) (k : jsstring) : value :=
  match v with
  | Some j => prop j k
  | None => None
  end.

(** [v?.[0]]. *)
Definition opt_index0 (v : value) : value :=
  match v with
  | Some (JArr items) => nth_error items 0
  | Some (JStr (c :: _)) => Some (JStr [c])
  | Some (JObj fields) => own (js "0") fields
  | _ => None
  end.


(** [text.match(/\{[\s\S]*\}/)], as a backtracking matcher runs it.
    [greedy_to_rbrace s] is [[\s\S]*\}] anchored at the head of [s]: the
    star takes as many code units as it can and gives back until a [}]
    follows, so the match is the longest prefix of [s] ending in [}]. *)
Fixpoint greedy_to_rbrace (s : jsstring) : option jsstring :=
  match s with
  | [] => None
  | c :: s' =>
      match greedy_to_rbrace s' with
      | Some m => Some (c :: m)
      | None => if N.eqb c RBRACE then Some [c] else None
      end
  end.

(** The start positions are tried from the left; the first that matches
    wins.  The result is [jsonMatch[0]], or [None] for [null]. *)
Fixpoint match_braces (s : jsstring) : option jsstring :=
  match s with
  | [] => None
  | c :: s' =>
      if N.eqb c LBRACE then
        match greedy_to_rbrace s' with
        | Some m => Some (c :: m)
        | None => match_braces s'
        end
      else match_braces s'
  end.

(** [text.match(re)] on whatever [text] holds: only a string has the
    method. *)
Definition string_match (v : value) : M (option jsstring) :=
  match v with
  | Some (JStr s) => ret (match_braces s)
  | _ => throw TypeError
  end.

(** *** Effects *)

Definition json_parse (P : Platform) (s : jsstring) : M Json :=
  match JSON_parse P s with
  | Some v => ret v
  | None => throw SyntaxError
  end.

(** [`${v}`]: a string is inserted as it is. *)
Definition interpolate (P : Platform) (v : Json) : M jsstring :=
  match v with
  | JStr s => ret s
  | _ => match ToString P v with
         | Some s => ret s
         | None => throw TypeError
         end
  end.

Definition do_fetch (W : World) (req : FetchRequest) : M FetchResponse :=
  emit (Fetched req) ;;;
  match fetch W req with
  | Some r => ret r
  | None => throw NetworkError
  end.

Definition console_error (label : jsstring) (detail : jsstring + Exn) : M unit :=
  emit (ConsoleError label detail).

Definition error_response (msg : jsstring) (st : Z) : Response :=
  {| payload := JObj [(js "error", JStr msg)]; status := st |}.

(** *** The prompt *)

(** A literal in which each apostrophe stands for a double quote. *)
Definition jsq (s : string) : jsstring :=
  map (fun c => if N.eqb c 39 then DQUOTE else c) (js s).

Definition build_prompt (lang code : jsstring) : jsstring :=
  js "You are a senior code security and performance auditor. Analyze the following "
  ++ lang ++
  js " code and provide a comprehensive security and performance audit.

Code to analyze:
```" ++ lang ++ [NL] ++ code ++ js "
```

Please respond with a JSON object containing:
1. score: Overall security score (0-100)
2. issues: Array of issues with line number, severity (error/warning/info), message, type, and suggestion
3. metrics: Object with complexity, maintainability, security, and performance ratings
4. summary: Brief analysis summary
5. analysisTime: Estimated analysis time in seconds

Example format:
" ++ jsq "{
  'score': 75,
  'issues': [
    {
      'line': 2,
      'severity': 'error',
      'message': 'SQL injection vulnerability',
      'type': 'Security',
      'suggestion': 'Use parameterized queries instead'
    }
  ],
  'metrics': {
    'complexity': 'Medium',
    'maintainability': 'Good',
    'security': 'Fair',
    'performance': 'Good'
  },
  'summary': 'Code has potential security vulnerabilities that should be addressed.',
  'analysisTime': 1.5
}".

#[local] Set Warnings "-inexact-float".
Definition gemini_request (P : Platform) (geminiApiKey prompt : jsstring) : FetchRequest :=
  {| url := js "https://generativelanguage.googleapis.com/v1beta/models/gemini-2.0-flash:generateContent?key="
            ++ geminiApiKey;
     method := js "POST";
     headers := [(js "Content-Type", js "application/json")];
     body := JSON_stringify P
       (JObj [ (js "contents",
                JArr [ JObj [ (js "parts", JArr [ JObj [ (js "text", JStr prompt) ] ]) ] ]);
               (js "generationConfig",
                JObj [ (js "temperature", JNum 0.1%float);
                       (js "maxOutputTokens", JNum 2048%float) ]) ]) |}.

(** *** The handler *)

(** Lines 7 to 78 of the [try] block: validate the request, call the
    upstream service and dig the candidate text out of its reply.  The
    result is [inl] of a response where the source has a [return], and
    [inr] of the local [text] where control falls through to line 80.  The
    template literal converts [language || 'javascript'] (twice, to the
    same text) and [code], which is not [undefined] once the first guard
    is passed. *)
Definition ask_upstream (P : Platform) (W : World) (request_body : jsstring)
  : M (Response + value) :=
  parsed <- json_parse P request_body ;;
  code <- member parsed (js "code") ;;
  language <- member parsed (js "language") ;;
  if negb (truthy code) then
    ret (inl (error_response (js "Code is required") 400))
  else
  match GEMINI_API_KEY W with
  | None | Some [] =>
      ret (inl (error_response (js "Gemini API key not configured") 500))
  | Some geminiApiKey =>
  lang <- interpolate P (match language with
                         | Some l => if truthy language then l else JStr (js "javascript")
                         | None => JStr (js "javascript")
                         end) ;;
  code_text <- interpolate P (match code with Some c => c | None => JNull end) ;;
  let prompt := build_prompt lang code_text in
  response <- do_fetch W (gemini_request P geminiApiKey prompt) ;;
  if negb (ok response) then
    console_error (js "Gemini API error:") (inl (text response)) ;;;
    ret (inl (error_response (js "Analysis service unavailable") 500))
  else
  data <- json_parse P (text response) ;;
  candidates <- member data (js "candidates") ;;
  ret (inr
    (opt_member
       (opt_index0
          (opt_member (opt_member (opt_index0 candidates) (js "content")) (js "parts")))
       (js "text")))
  end.

(** Lines 80 to 92: from the local [text] to the response. *)
Definition adapt_reply (P : Platform) (text : value) : M Response :=
  if negb (truthy text) then
    ret (error_response (js "No analysis generated") 500)
  else
  jsonMatch <- string_match text ;;
  match jsonMatch with
  | None => ret (error_response (js "Invalid analysis format") 500)
  | Some span =>
      analysisResult <- json_parse P span ;;
      ret {| payload := analysisResult; status := 200 |}
  end.

(** The body of the [try] block. *)
Definition POST_try (P : Platform) (W : World) (request_body : jsstring) : M Response :=
  r <- ask_upstream P W request_body ;;
  match r with
  | inl early => ret early
  | inr text => adapt_reply P text
  end.

(** [POST(request)]: the [try] block under its [catch], which logs the
    exception and answers 500.  The result is the response and the trace
    of effects. *)
Definition POST (P : Platform) (W : World) (request_body : jsstring) : list Event * Response :=
  match POST_try P W request_body with
  | (t, inr r) => (t, r)
  | (t, inl e) =>
      (t ++ [ConsoleError (js "Analysis error:") (inr e)],
       error_response (js "Internal server error") 500)
  end.

(** The number of calls to [fetch] in a trace. *)
Definition fetch_count (t : list Event) : nat :=
  List.length (filter (fun ev => match ev with Fetched _ => true | _ => false end) t).

End Route.

(* ================================================================== *)
(** ** A reference platform *)
(* ================================================================== *)

(** The handler is modelled over any [Platform].  To run it on concrete
    requests, this module gives one: a recursive-descent reader of the
    JSON grammar (RFC 8259), a compact writer, and the string conversion
    of JSON values.  Numerals are read with one correctly rounded
    conversion when they denote an integer and one further float division
    otherwise; a non-integer is written with its exact decimal expansion. *)

Module RefPlatform.
Import Route.

Definition is_ws (c : codeunit) : bool :=
  N.eqb c 32 || N.eqb c 9 || N.eqb c 10 || N.eqb c 13.

Fixpoint skip_ws (s : jsstring) : jsstring :=
  match s with
  | c :: s' => if is_ws c then skip_ws s' else s
  | [] => []
  end.

Definition is_digit (c : codeunit) : bool := N.leb 48 c && N.leb c 57.

Definition hex_value (c : codeunit) : option N :=
  if N.leb 48 c && N.leb c 57 then Some (c - 48)%N
  else if N.leb 97 c && N.leb c 102 then Some (c - 87)%N
  else if N.leb 65 c && N.leb c 70 then Some (c - 55)%N
  else None.

(** The code unit a one-letter escape stands for. *)
Definition unescape (c : codeunit) : option codeunit :=
  if N.eqb c 34 then Some 34%N           (* quote *)
  else if N.eqb c 92 then Some 92%N      (* backslash *)
  else if N.eqb c 47 then Some 47%N      (* slash *)
  else if N.eqb c 98 then Some 8%N       (* b *)
  else if N.eqb c 102 then Some 12%N     (* f *)
  else if N.eqb c 110 then Some 10%N     (* n *)
  else if N.eqb c 114 then Some 13%N     (* r *)
  else if N.eqb c 116 then Some 9%N      (* t *)
  else None.

Definition cons_fst {A B : Type} (a : A) (r : option (list A * B)) : option (list A * B) :=
  match r with
  | Some (l, b) => Some (a :: l, b)
  | None => None
  end.

(** A string literal after its opening quote: the string and the rest of
    the input after the closing quote. *)
Fixpoint read_string (s : jsstring) : option (jsstring * jsstring) :=
  match s with
  | [] => None
  | c :: s' =>
      if N.eqb c 34 then Some ([], s')
      else if N.eqb c 92 then
        match s' with
        | e :: s'' =>
            if N.eqb e 117 then
              match s'' with
              | h1 :: h2 :: h3 :: h4 :: s3 =>
                  match hex_value h1, hex_value h2, hex_value h3, hex_value h4 with
                  | Some a, Some b, Some c', Some d =>
                      cons_fst (a * 4096 + b * 256 + c' * 16 + d)%N (read_string s3)
                  | _, _, _, _ => None
                  end
              | _ => None
              end
            else
              match unescape e with
              | Some u => cons_fst u (read_string s'')
              | None => None
              end
        | [] => None
        end
      else if N.ltb c 32 then None
      else cons_fst c (read_string s')
  end.

(** A run of digits: their value, their number, and the rest. *)
Fixpoint read_digits (s : jsstring) (acc : Z) (n : Z) : Z * Z * jsstring :=
  match s with
  | c :: s' =>
      if is_digit c then read_digits s' (acc * 10 + Z.of_N (c - 48)) (n + 1)
      else (acc, n, s)
  | [] => (acc, n, s)
  end.

Definition float_of_Z (m : Z) : float :=
  SF2Prim (binary_normalize prec emax m 0 false).

(** [m * 10^e]. *)
Definition float_of_decimal (m e : Z) : float :=
  if e >=? 0 then float_of_Z (m * 10 ^ e)
  else (float_of_Z m / float_of_Z (10 ^ (- e)))%float.

(** A numeral [-? int frac? exp?] at the head of [s]. *)
Definition read_number (s : jsstring) : option (float * jsstring) :=
  let '(neg, s1) := match s with
                    | c :: s' => if N.eqb c 45 then (true, s') else (false, s)
                    | [] => (false, s)
                    end in
  let '(ip, ni, s2) := read_digits s1 0 0 in
  let leading_zero := match s1 with c :: _ => N.eqb c 48 | [] => false end in
  if (ni =? 0) || (leading_zero && (1 <? ni)) then None else
  let frac := match s2 with
              | c :: s' =>
                  if N.eqb c 46 then
                    let '(m, nf, s3) := read_digits s' ip 0 in
                    if nf =? 0 then None else Some (m, nf, s3)
                  else Some (ip, 0, s2)
              | [] => Some (ip, 0, s2)
              end in
  match frac with
  | None => None
  | Some (m, nf, s3) =>
      let expo := match s3 with
                  | c :: s' =>
                      if N.eqb c 101 || N.eqb c 69 then
                        let '(eneg, s4) :=
                          match s' with
                          | d :: s'' => if N.eqb d 45 then (true, s'')
                                        else if N.eqb d 43 then (false, s'')
                                        else (false, s')
                          | [] => (false, s')
                          end in
                        let '(e, ne, s5) := read_digits s4 0 0 in
                        if ne =? 0 then None
                        else Some (if eneg then - e else e, s5)
                      else Some (0, s3)
                  | [] => Some (0, s3)
                  end in
      match expo with
      | None => None
      | Some (e, rest) =>
          let f := float_of_decimal m (e - nf) in
          Some (if neg then (- f)%float else f, rest)
      end
  end.

(** Defining a property again replaces its value and keeps its place. *)
Fixpoint define (k : jsstring) (v : Json) (fields : list (jsstring * Json))
  : list (jsstring * Json) :=
  match fields with
  | [] => [(k, v)]
  | (k', v') :: rest =>
      if str_eqb k k' then (k', v) :: rest else (k', v') :: define k v rest
  end.

Definition expect (lit : jsstring) (v : Json) (s : jsstring) : option (Json * jsstring) :=
  if startsWith s lit then Some (v, skipn (List.length lit) s) else None.

(** A value at the head of [s] (after white space) and the rest of the
    input; [fuel] bounds the number of values, elements and members read. *)
Fixpoint read_value (fuel : nat) (s : jsstring) : option (Json * jsstring) :=
  match fuel with
  | O => None
  | S fuel' =>
      match skip_ws s with
      | [] => None
      | c :: s' =>
          if N.eqb c 123 then
            match skip_ws s' with
            | d :: s'' => if N.eqb d 125 then Some (JObj [], s'')
                          else read_members fuel' (d :: s'') []
            | [] => None
            end
          else if N.eqb c 91 then
            match skip_ws s' with
            | d :: s'' => if N.eqb d 93 then Some (JArr [], s'')
                          else read_elements fuel' (d :: s'') []
            | [] => None
            end
          else if N.eqb c 34 then
            match read_string s' with
            | Some (str, rest) => Some (JStr str, rest)
            | None => None
            end
          else if N.eqb c 116 then expect (js "true") (JBool true) (c :: s')
          else if N.eqb c 102 then expect (js "false") (JBool false) (c :: s')
          else if N.eqb c 110 then expect (js "null") JNull (c :: s')
          else
            match read_number (c :: s') with
            | Some (f, rest) => Some (JNum f, rest)
            | None => None
            end
      end
  end

with read_elements (fuel : nat) (s : jsstring) (acc : list Json)
  : option (Json * jsstring) :=
  match fuel with
  | O => None
  | S fuel' =>
      match read_value fuel' s with
      | Some (v, rest) =>
          match skip_ws rest with
          | c :: rest' =>
              if N.eqb c 44 then read_elements fuel' rest' (acc ++ [v])
              else if N.eqb c 93 then Some (JArr (acc ++ [v]), rest')
              else None
          | [] => None
          end
      | None => None
      end
  end

with read_members (fuel : nat) (s : jsstring) (acc : list (jsstring * Json))
  : option (Json * jsstring) :=
  match fuel with
  | O => None
  | S fuel' =>
      match skip_ws s with
      | q :: s1 =>
          if N.eqb q 34 then
            match read_string s1 with
            | Some (k, s2) =>
                match skip_ws s2 with
                | c :: s3 =>
                    if N.eqb c 58 then
                      match read_value fuel' s3 with
                      | Some (v, rest) =>
                          match skip_ws rest with
                          | d :: rest' =>
                              if N.eqb d 44 then read_members fuel' rest' (define k v acc)
                              else if N.eqb d 125 then Some (JObj (define k v acc), rest')
                              else None
                          | [] => None
                          end
                      | None => None
                      end
                    else None
                | [] => None
                end
            | None => None
            end
          else None
      | [] => None
      end
  end.

(** [JSON.parse(s)]: one value, then only white space. *)
Definition parse (s : jsstring) : option Json :=
  match read_value (S (List.length s)) s with
  | Some (v, rest) => match skip_ws rest with [] => Some v | _ :: _ => None end
  | None => None
  end.

(** The writer. *)

Definition hex_digit (n : N) : codeunit :=
  if N.ltb n 10 then (48 + n)%N else (87 + n)%N.

Definition escape (c : codeunit) : jsstring :=
  if N.eqb c 34 then [92; 34]%N
  else if N.eqb c 92 then [92; 92]%N
  else if N.eqb c 8 then [92; 98]%N
  else if N.eqb c 12 then [92; 102]%N
  else if N.eqb c 10 then [92; 110]%N
  else if N.eqb c 13 then [92; 114]%N
  else if N.eqb c 9 then [92; 116]%N
  else if N.ltb c 32 then [92; 117; 48; 48; hex_digit (c / 16); hex_digit (c mod 16)]%N
  else [c].

Definition quote (s : jsstring) : jsstring :=
  [DQUOTE] ++ flat_map escape s ++ [DQUOTE].

Fixpoint join (sep : jsstring) (l : list jsstring) : jsstring :=
  match l with
  | [] => []
  | [x] => x
  | x :: l' => x ++ sep ++ join sep l'
  end.

Definition digits_of_Z (z : Z) : jsstring :=
  js (NilEmpty.string_of_uint (N.to_uint (Z.to_N z))).

(** The decimal digits of [r / d] after the point, for [0 <= r < d]. *)
Fixpoint fraction_digits (fuel : nat) (r d : Z) : jsstring :=
  match fuel with
  | O => []
  | S fuel' =>
      if r =? 0 then []
      else Z.to_N (48 + (r * 10) / d) :: fraction_digits fuel' ((r * 10) mod d) d
  end.

(** A finite double in decimal; [None] for NaN and the infinities. *)
Definition number_text (f : float) : option jsstring :=
  match Prim2SF f with
  | S754_nan | S754_infinity _ => None
  | S754_zero _ => Some (js "0")
  | S754_finite neg m e =>
      let sign := if neg then js "-" else [] in
      Some (sign ++
            if e >=? 0 then digits_of_Z (Z.pos m * 2 ^ e)
            else
              let d := 2 ^ (- e) in
              let r := Z.pos m mod d in
              digits_of_Z (Z.pos m / d) ++
              (if r =? 0 then [] else js "." ++ fraction_digits (Z.to_nat (- e)) r d))
  end.

(** [JSON.stringify(v)] without indentation. *)
Fixpoint stringify (v : Json) : jsstring :=
  match v with
  | JNull => js "null"
  | JBool true => js "true"
  | JBool false => js "false"
  | JNum f => match number_text f with Some t => t | None => js "null" end
  | JStr s => quote s
  | JArr items =>
      js "[" ++
      join (js ",")
        ((fix elements (l : list Json) : list jsstring :=
            match l with
            | [] => []
            | x :: l' => stringify x :: elements l'
            end) items)
      ++ js "]"
  | JObj fields =>
      js "{" ++
      join (js ",")
        ((fix members (l : list (jsstring * Json)) : list jsstring :=
            match l with
            | [] => []
            | (k, x) :: l' => (quote k ++ js ":" ++ stringify x) :: members l'
            end) fields)
      ++ js "}"
  end.

(** The conversion a template literal applies.  An array joins the
    conversions of its elements with commas, [null] giving the empty
    text; a plain object gives [[object Object]] unless an own [toString]
    property, which cannot be callable in a parsed value, hides the
    inherited method. *)
Fixpoint to_string (v : Json) : option jsstring :=
  match v with
  | JNull => Some (js "null")
  | JBool true => Some (js "true")
  | JBool false => Some (js "false")
  | JNum f =>
      match number_text f with
      | Some t => Some t
      | None => Some (if PrimFloat.is_nan f then js "NaN"
                      else if PrimFloat.ltb f 0 then js "-Infinity" else js "Infinity")
      end
  | JStr s => Some s
  | JArr items =>
      match
        (fix elements (l : list Json) : option (list jsstring) :=
           match l with
           | [] => Some []
           | x :: l' =>
               match match x with JNull => Some [] | _ => to_string x end, elements l' with
               | Some a, Some b => Some (a :: b)
               | _, _ => None
               end
           end) items
      with
      | Some texts => Some (join (js ",") texts)
      | None => None
      end
  | JObj fields =>
      match own (js "toString") fields with
      | Some _ => None
      | None => Some (js "[object Object]")
      end
  end.

Definition platform : Platform :=
  {| JSON_parse := parse; JSON_stringify := stringify; ToString := to_string |}.

End RefPlatform.

(* ================================================================== *)
(** ** Concrete inputs *)
(* ================================================================== *)

Module Examples.
Import Route RefPlatform.

(** The text of the end-to-end scenario:
    the statement assigning to [query] the quoted text
    [SELECT * FROM users WHERE id = ] joined to [userId]. *)
Definition sql_example : jsstring :=
  js "const query = " ++ [DQUOTE] ++ js "SELECT * FROM users WHERE id = "
  ++ [DQUOTE] ++ js " + userId;".

(** A text whose first line contains [eval] but not [eval(], and whose
    second line calls [eval]. *)
Definition eval_example : jsstring :=
  js "const evaluate = 1;" ++ [NL] ++ js "eval(input);".

(** A text that fires all three rules, and one that fires none. *)
Definition dirty_example : jsstring := js "eval('SELECT ' + x); console.log(1)".
Definition clean_example : jsstring := js "function add(a, b) { return a - -b; }".

(** The body of a request carrying [code]. *)
Definition request_with_code (code : jsstring) : jsstring :=
  stringify (JObj [(js "code", JStr code); (js "language", JStr (js "javascript"))]).

(** The body of an upstream reply with one candidate whose text is
    [reply]. *)
Definition envelope (reply : jsstring) : jsstring :=
  stringify
    (JObj [(js "candidates",
            JArr [JObj [(js "content",
                         JObj [(js "parts", JArr [JObj [(js "text", JStr reply)]])])]])]).

(** A deployment with a key configured, whose upstream answers every
    request with the candidate text [reply]. *)
Definition api_key : jsstring := js "test-key".

Definition world_replying (reply : jsstring) : World :=
  {| GEMINI_API_KEY := Some api_key;
     fetch := fun _ => Some {| ok := true; text := envelope reply |} |}.

(** The request the handler sends upstream for a string [code] in
    that deployment. *)
Definition sent (code : jsstring) : FetchRequest :=
  gemini_request platform api_key (build_prompt (js "javascript") code).

(** An analysis with every field of the result schema, and replies
    around it. *)
Definition full_analysis : Json :=
  JObj [(js "score", JNum 90%float);
        (js "issues", JArr []);
        (js "metrics", JObj [(js "complexity", JStr (js "Low"));
                             (js "maintainability", JStr (js "Good"));
                             (js "security", JStr (js "Good"));
                             (js "performance", JStr (js "Good"))]);
        (js "summary", JStr (js "No issues found."));
        (js "analysisTime", JNum 1.5%float)].

Definition prose_before : jsstring := js "Here is the analysis you asked for: ".
Definition prose_after : jsstring := js " Let me know if you need more detail.".

(** A reply whose span is not JSON (the key is not quoted), and one whose
    span is JSON with a single field. *)
Definition unquoted_reply : jsstring := js "Result: {score: 75}".
Definition short_reply : jsstring := jsq "{'score': 75}".

End Examples.

(* ================================================================== *)
(** ** More deployments *)
(* ================================================================== *)

Module Deployments.
Import Route RefPlatform Examples.

(** No key in the environment; the upstream would answer if asked. *)
Definition world_without_key : World :=
  {| GEMINI_API_KEY := None;
     fetch := fun _ => Some {| ok := true; text := envelope short_reply |} |}.

(** A key configured, and an upstream that answers every request with
    the given [ok] flag and raw body. *)
Definition world_answering (flag : bool) (raw : jsstring) : World :=
  {| GEMINI_API_KEY := Some api_key;
     fetch := fun _ => Some {| ok := flag; text := raw |} |}.

(** A key configured, and an upstream that cannot be reached. *)
Definition world_unreachable : World :=
  {| GEMINI_API_KEY := Some api_key; fetch := fun _ => None |}.

End Deployments.

(* ================================================================== *)
(** ** Requests the handler forwards *)
(* ================================================================== *)

Module Requests.
Import Route.

(** What [language || 'javascript'] gives when [language] is a string or
    missing. *)
Definition language_text (fields : list (jsstring * Json)) : jsstring :=
  match own (js "language") fields with
  | Some (JStr (c :: l)) => c :: l
  | _ => js "javascript"
  end.

(** A request as the client of [analyze.ts] sends it: an object whose
    [code] is a non-empty string and whose [language], when present, is a
    string. *)
Definition well_formed
  (P : Platform) (request_body : jsstring) (fields : list (jsstring * Json))
  (code : jsstring) : Prop :=
  JSON_parse P request_body = Some (JObj fields) /\
  own (js "code") fields = Some (JStr code) /\
  code <> [] /\
  (own (js "language") fields = None
   \/ exists l, own (js "language") fields = Some (JStr l)).

(** The request the handler then sends upstream under the key [key]. *)
Definition outbound
  (P : Platform) (key : jsstring) (fields : list (jsstring * Json)) (code : jsstring)
  : FetchRequest :=
  gemini_request P key (build_prompt (language_text fields) code).

(** The messages of the handler's error responses, with their status. *)
Definition error_table : list (jsstring * Z) :=
  [ (js "Code is required", 400);
    (js "Gemini API key not configured", 500);
    (js "Analysis service unavailable", 500);
    (js "No analysis generated", 500);
    (js "Invalid analysis format", 500);
    (js "Internal server error", 500) ].

End Requests.

(* ================================================================== *)
(** ** [frontend/src/api/analyze.ts], first variant: the client *)
(* ================================================================== *)

Module Client.
Import Route.

(** What the [try] block can throw: an exception of the runtime, or the
    [new Error(message)] of line 31. *)
Inductive Thrown := Runtime (e : Exn) | Error (message : jsstring).

Inductive Event :=
| Fetched (req : FetchRequest)
| ConsoleError (label : jsstring) (detail : Thrown).

(** The request of lines 22 to 28. *)
Definition analyze_request (P : Platform) (code language : jsstring) : FetchRequest :=
  {| url := js "/api/analyze";
     method := js "POST";
     headers := [(js "Content-Type", js "application/json")];
     body := JSON_stringify P
               (JObj [(js "code", JStr code); (js "language", JStr language)]) |}.

(** [analyzeCode(code, language)] against a server [fetch]: the effects,
    and either the exception the returned promise rejects with or the
    value it resolves to.  A missing [language] takes the default
    ['javascript']; the [catch] logs what was thrown and throws it
    again. *)
Definition analyzeCode
  (P : Platform) (fetch : FetchRequest -> option FetchResponse)
  (code : jsstring) (language : option jsstring)
  : list Event * (Thrown + Json) :=
  let language := match language with Some l => l | None => js "javascript" end in
  let req := analyze_request P code language in
  let attempt : Thrown + Json :=
    match fetch req with
    | None => inl (Runtime NetworkError)
    | Some response =>
        if negb (ok response) then inl (Error (js "Analysis failed"))
        else match JSON_parse P (text response) with
             | Some v => inr v
             | None => inl (Runtime SyntaxError)
             end
    end in
  match attempt with
  | inr v => ([Fetched req], inr v)
  | inl error => ([Fetched req; ConsoleError (js "Analysis error:") error], inl error)
  end.

(** The route handler as the server behind [fetch]: the framework hands
    the body of the request to [POST] and sends
    [NextResponse.json(payload, { status })] back as a response of that
    status whose body is [JSON.stringify(payload)]; [response.ok] holds
    for the statuses 200 to 299. *)
Definition served (P : Platform) (W : World) (req : FetchRequest) : option FetchResponse :=
  let r := snd (POST P W (body req)) in
  Some {| ok := (200 <=? status r) && (status r <=? 299);
          text := JSON_stringify P (payload r) |}.

End Client.

(* ================================================================== *)
(** ** The score display: [QualityGauge] and the page around it *)
(* ================================================================== *)

Module Display.

(** [src/unnamed/part_000], [QualityGauge]: the colour of the ring and the
    label under the percentage, for a [score] that is any number. *)
Definition getColor (score : float) : jsstring :=
  if PrimFloat.leb 90 score then js "#10b981"
  else if PrimFloat.leb 75 score then js "#eab308"
  else if PrimFloat.leb 60 score then js "#f97316"
  else js "#ef4444".

Definition getLabel (score : float) : jsstring :=
  if PrimFloat.leb 90 score then js "Excellent"
  else if PrimFloat.leb 75 score then js "Good"
  else if PrimFloat.leb 60 score then js "Fair"
  else js "Poor".

(** [src/unnamed/part_001], [getScoreColor]: the colour class of the
    percentage printed beside the gauge. *)
Definition getScoreColor (score : float) : jsstring :=
  if PrimFloat.leb 90 score then js "text-emerald-400"
  else if PrimFloat.leb 75 score then js "text-yellow-400"
  else if PrimFloat.leb 60 score then js "text-orange-400"
  else js "text-red-400".

(** The element type of the [issues] the editor and the page receive. *)
Record Issue := mkIssue {
  line : Z;
  column : Z;
  severity : Mock.Severity;
  message : jsstring;
  type : jsstring
}.

(** [i.severity === 'error'] and its two siblings. *)
Definition severity_is (s : Mock.Severity) (i : Issue) : bool :=
  match s, severity i with
  | Mock.error, Mock.error => true
  | Mock.warning, Mock.warning => true
  | Mock.info, Mock.info => true
  | _, _ => false
  end.

(** [issues.filter(i => i.severity === s).length], the three badges of the
    issue summary. *)
Definition count (s : Mock.Severity) (issues : list Issue) : nat :=
  List.length (filter (severity_is s) issues).

End Display.

(* ================================================================== *)
(** ** Properties of the built-ins *)
(* ================================================================== *)

Lemma str_eqb_eq (a b : jsstring) : str_eqb a b = true <-> a = b.
Proof.
  revert b; induction a as [|c a IH]; intros [|d b]; simpl; split;
    try congruence; try reflexivity.
  - rewrite andb_true_iff, N.eqb_eq, IH. intros [-> ->]. reflexivity.
  - intros [= -> ->]. rewrite andb_true_iff, N.eqb_eq, IH. split; reflexivity.
Qed.

Lemma filter_nonempty_iff {A : Type} (p : A -> bool) (l : list A) :
  (Z.of_nat (List.length (filter p l)) >? 0) = true <->
  exists x, In x l /\ p x = true.
Proof.
  rewrite Z.gtb_ltb, Z.ltb_lt. split.
  - intros H. destruct (filter p l) as [|x l'] eqn:E; [simpl in H; lia|].
    exists x. apply filter_In. rewrite E. left. reflexivity.
  - intros (x & Hin & Hp).
    assert (Hx : In x (filter p l)) by (apply filter_In; split; assumption).
    destruct (filter p l); [contradiction | simpl; lia].
Qed.

(** [startsWith] and [includes] decide prefix and substring. *)
Lemma startsWith_iff (s p : jsstring) :
  startsWith s p = true <-> exists suffix, s = p ++ suffix.
Proof.
  revert s; induction p as [|c p IH]; intros s; simpl.
  - split; [intros _; exists s; reflexivity | reflexivity].
  - destruct s as [|d s].
    + split; [discriminate | intros [suffix H]; discriminate].
    + rewrite andb_true_iff, N.eqb_eq, IH. split.
      * intros [-> [suffix ->]]. exists suffix. reflexivity.
      * intros [suffix [= -> ->]]. split; [reflexivity | exists suffix; reflexivity].
Qed.

Lemma includes_iff (s sub : jsstring) :
  includes s sub = true <-> exists before after, s = before ++ sub ++ after.
Proof.
  induction s as [|c s IH]; simpl; rewrite orb_true_iff, startsWith_iff.
  - split.
    + intros [[after H] | H]; [|discriminate]. exists [], after. exact H.
    + intros (before & after & H). left.
      destruct before; [exists after; exact H | discriminate].
  - rewrite IH. split.
    + intros [[after H] | (before & after & ->)].
      * exists [], after. exact H.
      * exists (c :: before), after. reflexivity.
    + intros (before & after & H). destruct before as [|b before].
      * left. exists after. exact H.
      * right. injection H as -> ->. exists before, after. reflexivity.
Qed.

(** [split] cuts at every separator and nowhere else: the pieces hold no
    separator, and joining them with it gives the text back. *)
Lemma split_not_nil (s : jsstring) (sep : codeunit) : split s sep <> [].
Proof.
  destruct s as [|c s]; simpl; [discriminate|].
  destruct (N.eqb c sep); [discriminate|].
  destruct (split s sep); discriminate.
Qed.

Lemma split_pieces (s : jsstring) (sep : codeunit) :
  Forall (fun piece => ~ In sep piece) (split s sep).
Proof.
  induction s as [|c s IH]; simpl.
  - constructor; [intros [] | constructor].
  - destruct (N.eqb_spec c sep) as [->|Hc].
    + constructor; [intros [] | exact IH].
    + destruct (split s sep) as [|piece pieces]; inversion IH; subst;
        constructor; try assumption; try constructor;
        simpl; intros [E | H]; try congruence; try contradiction.
Qed.

Lemma split_join (s : jsstring) (sep : codeunit) :
  RefPlatform.join [sep] (split s sep) = s.
Proof.
  induction s as [|c s IH]; simpl; [reflexivity|].
  pose proof (split_not_nil s sep) as Hn.
  destruct (N.eqb_spec c sep) as [->|Hc].
  - destruct (split s sep) as [|piece pieces]; [contradiction|].
    simpl in *. rewrite IH. reflexivity.
  - destruct (split s sep) as [|piece pieces]; [contradiction|].
    destruct pieces; simpl in *; rewrite <- IH; reflexivity.
Qed.

(** [findIndex]: [-1] when no element satisfies the predicate, and
    otherwise the position of the first that does. *)
Lemma findIndex_none {A : Type} (p : A -> bool) (l : list A) :
  (forall x, In x l -> p x = false) -> findIndex p l = -1.
Proof.
  unfold findIndex. generalize 0. induction l as [|x l IH]; simpl; intros i H;
    [reflexivity|].
  rewrite (H x) by (left; reflexivity). apply IH. intros y Hy. apply H. right. exact Hy.
Qed.

Lemma findIndex_first {A : Type} (p : A -> bool) (before : list A) (x : A) (after : list A) :
  (forall y, In y before -> p y = false) -> p x = true ->
  findIndex p (before ++ x :: after) = Z.of_nat (List.length before).
Proof.
  unfold findIndex.
  assert (G : forall i, (forall y, In y before -> p y = false) -> p x = true ->
              findIndex_from p (before ++ x :: after) i = i + Z.of_nat (List.length before)).
  { induction before as [|b before IH]; simpl; intros i H Hx.
    - rewrite Hx. lia.
    - rewrite (H b) by (left; reflexivity). rewrite IH; [lia | | exact Hx].
      intros y Hy. apply H. right. exact Hy. }
  intros H Hx. rewrite G by assumption. lia.
Qed.

(* ================================================================== *)
(** ** Properties of the mock analyzer *)
(* ================================================================== *)

Section MockAnalyzer.
Import Mock Examples.

(** The running score at the [return] is the base less the deductions of
    the rules that fired. *)
Lemma run_rules_score (code : jsstring) :
  snd (run_rules code) =
  85 - (if includes code (js "SELECT") && includes code (js "+") then 25 else 0)
     - (if includes code (js "eval(") then 20 else 0)
     - (if includes code (js "console.log") then 5 else 0).
Proof.
  unfold run_rules, rule_sql, rule_eval, rule_console.
  destruct (includes code (js "SELECT") && includes code (js "+"));
    destruct (includes code (js "eval("));
    destruct (includes code (js "console.log")); reflexivity.
Qed.

Lemma run_rules_score_bounds (code : jsstring) : 35 <= snd (run_rules code) <= 85.
Proof.
  rewrite run_rules_score.
  destruct (includes code (js "SELECT") && includes code (js "+"));
    destruct (includes code (js "eval("));
    destruct (includes code (js "console.log")); lia.
Qed.

Lemma analyzeCode_score (code language : jsstring) :
  score (analyzeCode code language) = Z.max 0 (snd (run_rules code)).
Proof. unfold analyzeCode. destruct (run_rules code). reflexivity. Qed.

Lemma analyzeCode_issues (code language : jsstring) :
  issues (analyzeCode code language) = fst (run_rules code).
Proof. unfold analyzeCode. destruct (run_rules code). reflexivity. Qed.

Lemma analyzeCode_metrics (code language : jsstring) :
  metrics (analyzeCode code language) =
  {| complexity := if length code >? 500 then High
                   else if length code >? 200 then Medium else Low;
     maintainability := if snd (run_rules code) >? 70 then Good
                        else if snd (run_rules code) >? 50 then Fair else Poor;
     security :=
       if Z.of_nat (List.length
             (filter (fun i => str_eqb (type i) (js "Security")) (fst (run_rules code)))) >? 0
       then Poor else Good;
     performance := Good |}.
Proof. unfold analyzeCode. destruct (run_rules code). reflexivity. Qed.

Lemma analyzeCode_score_unclamped (code language : jsstring) :
  score (analyzeCode code language) = snd (run_rules code).
Proof.
  pose proof (run_rules_score_bounds code). rewrite analyzeCode_score. lia.
Qed.

(** C9: the score of every text lies between 35 and 85: the running score
    is at least 35 when it reaches [Math.max(0, score)], so the clamp
    returns its argument unchanged. *)
Theorem score_between_35_and_85 (code language : jsstring) :
  35 <= snd (run_rules code) <= 85 /\
  Z.max 0 (snd (run_rules code)) = snd (run_rules code) /\
  score (analyzeCode code language) = snd (run_rules code) /\
  35 <= score (analyzeCode code language) <= 85.
Proof.
  pose proof (run_rules_score_bounds code) as B.
  rewrite analyzeCode_score.
  repeat split; lia.
Qed.

(** C5: a text that triggers all three rules gets the score
    [max(0, 85 - 25 - 20 - 5) = 35] and exactly three issues, of
    severities error, error, warning in that order. *)
Theorem all_three_rules (code language : jsstring) :
  includes code (js "SELECT") = true ->
  includes code (js "+") = true ->
  includes code (js "eval(") = true ->
  includes code (js "console.log") = true ->
  score (analyzeCode code language) = Z.max 0 (85 - 25 - 20 - 5) /\
  score (analyzeCode code language) = 35 /\
  List.length (issues (analyzeCode code language)) = 3%nat /\
  map severity (issues (analyzeCode code language)) = [error; error; warning].
Proof.
  intros Hs Hp He Hc.
  rewrite analyzeCode_issues, analyzeCode_score.
  unfold run_rules, rule_sql, rule_eval, rule_console.
  rewrite Hs, Hp, He, Hc. simpl. repeat split; reflexivity.
Qed.

(** The theorem at a text that fires the three rules. *)
Lemma all_three_rules_witness :
  score (analyzeCode dirty_example (js "javascript")) = 35 /\
  map severity (issues (analyzeCode dirty_example (js "javascript")))
  = [error; error; warning].
Proof.
  destruct (all_three_rules dirty_example (js "javascript")) as (_ & H1 & _ & H2);
    try (vm_compute; reflexivity).
  split; assumption.
Defined.

(** C6: on the scenario's text with language javascript the analyzer
    returns score 60 and one issue: an error at line 1, of type Security,
    whose message contains [SQL injection]. *)
Theorem sql_example_result :
  score (analyzeCode sql_example (js "javascript")) = 60 /\
  exists i,
    issues (analyzeCode sql_example (js "javascript")) = [i] /\
    severity i = error /\
    line i = 1 /\
    type i = js "Security" /\
    includes (message i) (js "SQL injection") = true.
Proof.
  split; [vm_compute; reflexivity|].
  eexists. split; [vm_compute; reflexivity|].
  repeat split; vm_compute; reflexivity.
Qed.

(** C7: a text that triggers none of the three rules gets score 85, no
    issue, and the metrics security Good and performance Good. *)
Theorem clean_code (code language : jsstring) :
  (includes code (js "SELECT") && includes code (js "+")) = false ->
  includes code (js "eval(") = false ->
  includes code (js "console.log") = false ->
  score (analyzeCode code language) = 85 /\
  issues (analyzeCode code language) = [] /\
  security (metrics (analyzeCode code language)) = Good /\
  performance (metrics (analyzeCode code language)) = Good.
Proof.
  intros Hs He Hc.
  rewrite analyzeCode_issues, analyzeCode_score, analyzeCode_metrics.
  unfold run_rules, rule_sql, rule_eval, rule_console.
  rewrite Hs, He, Hc. simpl. repeat split; reflexivity.
Qed.

(** The theorem at a text that fires none. *)
Lemma clean_code_witness :
  score (analyzeCode clean_example (js "javascript")) = 85 /\
  issues (analyzeCode clean_example (js "javascript")) = [].
Proof.
  destruct (clean_code clean_example (js "javascript")) as (H1 & H2 & _);
    try (vm_compute; reflexivity).
  split; assumption.
Defined.

(** C8: the metrics of every text.  Complexity follows the length of the
    text (above 500 High, above 200 Medium, else Low); maintainability
    follows the returned score (above 70 Good, above 50 Fair, else Poor);
    security is Poor exactly when some issue has type Security, and Good
    otherwise; performance is Good. *)
Theorem metrics_derivation (code language : jsstring) :
  let r := analyzeCode code language in
  (500 < length code -> complexity (metrics r) = High) /\
  (200 < length code <= 500 -> complexity (metrics r) = Medium) /\
  (length code <= 200 -> complexity (metrics r) = Low) /\
  (70 < score r -> maintainability (metrics r) = Good) /\
  (50 < score r <= 70 -> maintainability (metrics r) = Fair) /\
  (score r <= 50 -> maintainability (metrics r) = Poor) /\
  (security (metrics r) = Poor <->
     exists i, In i (issues r) /\ type i = js "Security") /\
  (security (metrics r) = Good <->
     ~ exists i, In i (issues r) /\ type i = js "Security") /\
  performance (metrics r) = Good.
Proof.
  intros r. subst r.
  rewrite analyzeCode_score_unclamped, analyzeCode_metrics, analyzeCode_issues. cbn [complexity maintainability
    security performance].
  set (n := length code). set (s := snd (run_rules code)).
  assert (Hsec :
    (Z.of_nat (List.length
       (filter (fun i => str_eqb (type i) (js "Security")) (fst (run_rules code)))) >? 0) = true
    <-> exists i, In i (fst (run_rules code)) /\ type i = js "Security").
  { rewrite filter_nonempty_iff. split; intros (i & Hi & Ht); exists i; split;
      try assumption; apply str_eqb_eq; assumption. }
  repeat split.
  - intros H. apply Z.gtb_lt in H. rewrite H. reflexivity.
  - intros [H1 H2]. apply Z.gtb_lt in H1.
    destruct (n >? 500) eqn:E; [apply Z.gtb_lt in E; lia|]. rewrite H1. reflexivity.
  - intros H. destruct (n >? 500) eqn:E; [apply Z.gtb_lt in E; lia|].
    destruct (n >? 200) eqn:E'; [apply Z.gtb_lt in E'; lia|]. reflexivity.
  - intros H. apply Z.gtb_lt in H. rewrite H. reflexivity.
  - intros [H1 H2]. apply Z.gtb_lt in H1.
    destruct (s >? 70) eqn:E; [apply Z.gtb_lt in E; lia|]. rewrite H1. reflexivity.
  - intros H. destruct (s >? 70) eqn:E; [apply Z.gtb_lt in E; lia|].
    destruct (s >? 50) eqn:E'; [apply Z.gtb_lt in E'; lia|]. reflexivity.
  - intros H. apply Hsec. destruct (_ >? 0); [reflexivity | discriminate].
  - intros H. apply Hsec in H. rewrite H. reflexivity.
  - intros H Hex. apply Hsec in Hex. rewrite Hex in H. discriminate.
  - intros H. destruct (_ >? 0) eqn:E; [|reflexivity].
    exfalso. apply H, Hsec. reflexivity.
Qed.

(** The theorem at the scenario's text: 57 code units, score 60, one
    Security issue. *)
Lemma metrics_derivation_witness :
  let r := analyzeCode sql_example (js "javascript") in
  complexity (metrics r) = Low /\
  maintainability (metrics r) = Fair /\
  security (metrics r) = Poor /\
  performance (metrics r) = Good.
Proof.
  intros r.
  destruct (metrics_derivation sql_example (js "javascript"))
    as (_ & _ & Hlow & _ & Hfair & _ & Hsec & _ & Hperf).
  fold r in Hlow, Hfair, Hsec, Hperf.
  split; [|split; [|split]].
  - apply Hlow. vm_compute. discriminate.
  - apply Hfair. vm_compute. split; [reflexivity | discriminate].
  - apply Hsec. eexists. split; [left; reflexivity | vm_compute; reflexivity].
  - exact Hperf.
Defined.

(** C3 fails on the second rule.  On [eval_example] the rule fires
    because the text contains [eval(]; the first line containing [eval(] is
    line 2, and the issue is attributed to line 1, the first line
    containing [eval]. *)
Theorem eval_rule_line_mismatch (language : jsstring) :
  includes eval_example (js "eval(") = true /\
  map line (issues (analyzeCode eval_example language)) = [1] /\
  findIndex (fun l => includes l (js "eval(")) (split eval_example NL) + 1 = 2.
Proof. repeat split; vm_compute; reflexivity. Qed.

End MockAnalyzer.

(* ================================================================== *)
(** ** Properties of the route handler *)
(* ================================================================== *)

Section RouteHandler.
Import Route RefPlatform Examples.

(** *** The pattern [/\{[\s\S]*\}/] *)

Lemma greedy_to_rbrace_none (s : jsstring) :
  ~ In RBRACE s -> greedy_to_rbrace s = None.
Proof.
  induction s as [|c s IH]; simpl; intros H; [reflexivity|].
  rewrite IH by tauto.
  destruct (N.eqb_spec c RBRACE) as [->|_]; [exfalso; apply H; now left | reflexivity].
Qed.

Lemma greedy_to_rbrace_last (mid suffix : jsstring) :
  ~ In RBRACE suffix ->
  greedy_to_rbrace (mid ++ RBRACE :: suffix) = Some (mid ++ [RBRACE]).
Proof.
  intros H. induction mid as [|c mid IH]; simpl.
  - rewrite greedy_to_rbrace_none by assumption. reflexivity.
  - rewrite IH. reflexivity.
Qed.

Lemma match_braces_skip (prefix s : jsstring) :
  ~ In LBRACE prefix -> match_braces (prefix ++ s) = match_braces s.
Proof.
  induction prefix as [|c prefix IH]; simpl; intros H; [reflexivity|].
  destruct (N.eqb_spec c LBRACE) as [->|_]; [exfalso; apply H; now left|].
  apply IH. tauto.
Qed.

(** A brace-delimited span between a prefix without [{] and a suffix
    without [}] is what the pattern matches. *)
Lemma match_braces_wrapped (prefix mid suffix : jsstring) :
  ~ In LBRACE prefix -> ~ In RBRACE suffix ->
  match_braces (prefix ++ ([LBRACE] ++ mid ++ [RBRACE]) ++ suffix)
  = Some ([LBRACE] ++ mid ++ [RBRACE]).
Proof.
  intros Hp Hs. rewrite match_braces_skip by assumption.
  simpl. rewrite <- app_assoc. simpl.
  rewrite greedy_to_rbrace_last by assumption. reflexivity.
Qed.

(** Conversely, a match runs from the first [{] of the text to its last
    [}], and there is none only when no [}] follows a [{]. *)
Lemma greedy_to_rbrace_none_inv (s : jsstring) :
  greedy_to_rbrace s = None -> ~ In RBRACE s.
Proof.
  induction s as [|c s IH]; simpl; [tauto|].
  destruct (greedy_to_rbrace s); [discriminate|].
  destruct (N.eqb_spec c RBRACE) as [->|Hc]; [discriminate|].
  intros _ [E | H]; [congruence | exact (IH eq_refl H)].
Qed.

Lemma greedy_to_rbrace_some (s m : jsstring) :
  greedy_to_rbrace s = Some m ->
  exists inner suffix,
    s = m ++ suffix /\ m = inner ++ [RBRACE] /\ ~ In RBRACE suffix.
Proof.
  revert m; induction s as [|c s IH]; simpl; intros m H; [discriminate|].
  destruct (greedy_to_rbrace s) as [m'|] eqn:E.
  - injection H as <-. destruct (IH m' eq_refl) as (inner & suffix & -> & -> & Hs).
    exists (c :: inner), suffix. split; [reflexivity | split; [reflexivity | exact Hs]].
  - destruct (N.eqb_spec c RBRACE) as [->|_]; [|discriminate]. injection H as <-.
    exists [], s. split; [reflexivity | split; [reflexivity|]].
    apply greedy_to_rbrace_none_inv. exact E.
Qed.

Lemma match_braces_some (text span : jsstring) :
  match_braces text = Some span ->
  exists prefix inner suffix,
    text = prefix ++ span ++ suffix /\
    span = [LBRACE] ++ inner ++ [RBRACE] /\
    ~ In LBRACE prefix /\ ~ In RBRACE suffix.
Proof.
  revert span; induction text as [|c text IH]; simpl; intros span H; [discriminate|].
  assert (Hrec : match_braces text = Some span -> c <> LBRACE \/ ~ In RBRACE text ->
                 exists prefix inner suffix,
                   c :: text = prefix ++ span ++ suffix /\
                   span = [LBRACE] ++ inner ++ [RBRACE] /\
                   ~ In LBRACE prefix /\ ~ In RBRACE suffix).
  { intros Hm Hc. destruct (IH span Hm) as (prefix & inner & suffix & -> & -> & Hp & Hs).
    destruct Hc as [Hc | Hc].
    - exists (c :: prefix), inner, suffix.
      split; [reflexivity | split; [reflexivity | split; [|exact Hs]]].
      intros [E | Hin]; [congruence | exact (Hp Hin)].
    - exfalso. apply Hc. rewrite ?in_app_iff. simpl. rewrite ?in_app_iff. simpl. tauto. }
  destruct (N.eqb_spec c LBRACE) as [->|Hc].
  - destruct (greedy_to_rbrace text) as [m|] eqn:E.
    + injection H as <-. destruct (greedy_to_rbrace_some text m E)
        as (inner & suffix & -> & -> & Hs).
      exists [], inner, suffix.
      split; [reflexivity | split; [reflexivity | split; [intros [] | exact Hs]]].
    + apply Hrec; [exact H|]. right. apply greedy_to_rbrace_none_inv. exact E.
  - apply Hrec; [exact H|]. left. exact Hc.
Qed.

Lemma match_braces_none (text : jsstring) :
  match_braces text = None ->
  forall a b c, text <> a ++ [LBRACE] ++ b ++ [RBRACE] ++ c.
Proof.
  induction text as [|c0 text IH]; simpl; intros H a b c E.
  - destruct a; discriminate.
  - assert (Hin : In RBRACE text).
    { destruct a; injection E as _ ->; rewrite ?in_app_iff; simpl;
        rewrite ?in_app_iff; simpl; tauto. }
    destruct (N.eqb_spec c0 LBRACE) as [->|Hc].
    + destruct (greedy_to_rbrace text) eqn:G; [discriminate|].
      exact (greedy_to_rbrace_none_inv text G Hin).
    + destruct a as [|a0 a]; injection E as E1 E2; [congruence|].
      exact (IH H a b c E2).
Qed.

(** *** Running the handler *)

Lemma bind_ret {A B : Type} (a : A) (k : A -> M B) : bind (ret a) k = k a.
Proof. unfold bind, ret. destruct (k a). reflexivity. Qed.

Lemma bind_throw {A B : Type} (e : Exn) (k : A -> M B) : bind (throw e) k = throw e.
Proof. reflexivity. Qed.

Lemma bind_pair {A B : Type} (t : list Event) (a : A) (k : A -> M B) :
  bind (t, inr a) k = (t ++ fst (k a), snd (k a)).
Proof. unfold bind. destruct (k a). reflexivity. Qed.

Lemma Json_is_null (v : Json) : v = JNull \/ v <> JNull.
Proof. destruct v; [left; reflexivity | right; discriminate ..]. Qed.

Lemma member_not_null (v : Json) (k : jsstring) :
  v <> JNull -> member v k = ret (prop v k).
Proof. destruct v; intros H; try reflexivity. contradiction. Qed.

(** A request that fails to parse: the [catch] answers. *)
Lemma POST_unparsable (P : Platform) (W : World) (request_body : jsstring) :
  JSON_parse P request_body = None ->
  POST P W request_body =
  ([ConsoleError (js "Analysis error:") (inr SyntaxError)],
   error_response (js "Internal server error") 500).
Proof.
  intros H. unfold POST, POST_try, ask_upstream, json_parse. rewrite H.
  reflexivity.
Qed.

(** A falsy [code]: the first guard answers before anything else runs. *)
Lemma POST_falsy_code (P : Platform) (W : World) (request_body : jsstring) (parsed : Json) :
  JSON_parse P request_body = Some parsed ->
  parsed <> JNull ->
  truthy (prop parsed (js "code")) = false ->
  POST P W request_body = ([], error_response (js "Code is required") 400).
Proof.
  intros Hp Hn Hc. unfold POST, POST_try, ask_upstream, json_parse. rewrite Hp.
  rewrite bind_ret, !member_not_null, !bind_ret by assumption.
  rewrite Hc. reflexivity.
Qed.

(** When the first phase falls through with the local [text], it has
    called [fetch] exactly once and logged nothing. *)
Lemma ask_upstream_falls_through
  (P : Platform) (W : World) (request_body : jsstring) (tr : list Event) (v : value) :
  ask_upstream P W request_body = (tr, inr (inr v)) ->
  exists req resp, tr = [Fetched req] /\ fetch W req = Some resp /\ ok resp = true.
Proof.
  unfold ask_upstream, json_parse, do_fetch, console_error, interpolate.
  destruct (JSON_parse P request_body) as [parsed|]; [|discriminate].
  rewrite bind_ret.
  destruct (member parsed (js "code")) as [t1 [e|code]] eqn:E1.
  { destruct parsed; discriminate. }
  assert (t1 = []) by (destruct parsed; inversion E1; reflexivity). subst t1.
  change (@pair (list Event) (Exn + value) [] (inr code)) with (ret code).
  rewrite bind_ret.
  destruct (member parsed (js "language")) as [t2 [e|language]] eqn:E2.
  { destruct parsed; discriminate. }
  assert (t2 = []) by (destruct parsed; inversion E2; reflexivity). subst t2.
  change (@pair (list Event) (Exn + value) [] (inr language)) with (ret language).
  rewrite bind_ret.
  destruct (truthy code); [|discriminate]. cbn [negb].
  destruct (GEMINI_API_KEY W) as [[|k0 key]|]; try discriminate.
  match goal with |- context [bind ?m _] =>
    assert (Hm : (exists s, m = ret s) \/ m = throw TypeError)
      by (destruct (match language with Some _ => _ | None => _ end);
          try destruct (ToString P _); eauto);
    destruct Hm as [[lang ->] | ->]; [|discriminate]
  end.
  rewrite bind_ret.
  match goal with |- context [bind ?m _] =>
    assert (Hm : (exists s, m = ret s) \/ m = throw TypeError)
      by (destruct (match code with Some _ => _ | None => _ end);
          try destruct (ToString P _); eauto);
    destruct Hm as [[code_text ->] | ->]; [|discriminate]
  end.
  rewrite bind_ret.
  set (req := gemini_request P (k0 :: key) (build_prompt lang code_text)).
  unfold emit. rewrite bind_pair.
  destruct (fetch W req) as [resp|] eqn:Ef; [|discriminate].
  unfold ret at 1 2. cbn [fst snd app]. rewrite bind_pair.
  destruct (ok resp) eqn:Eok; cbn [negb].
  2:{ rewrite bind_pair. unfold ret. cbn [fst snd]. discriminate. }
  destruct (JSON_parse P (text resp)) as [data|]; [|discriminate].
  rewrite bind_ret.
  destruct (member data (js "candidates")) as [t3 [e|candidates]] eqn:E3.
  { destruct data; discriminate. }
  assert (t3 = []) by (destruct data; inversion E3; reflexivity). subst t3.
  rewrite bind_pair. unfold ret. cbn [fst snd app].
  intros [= <- _]. exists req, resp. auto.
Qed.

(** Conversely, the first phase falls through whenever the request is an
    object with a non-empty string for [code] and a string (or nothing)
    for [language], a key is configured, the upstream answers the request
    with [ok] and its body parses to something other than [null]. *)
Lemma ask_upstream_reaches
  (P : Platform) (W : World) (request_body : jsstring)
  (fields : list (jsstring * Json)) (code key : jsstring)
  (resp : FetchResponse) (data : Json) :
  let lang := match own (js "language") fields with
              | Some (JStr (c :: l)) => c :: l
              | _ => js "javascript"
              end in
  let req := gemini_request P key (build_prompt lang code) in
  JSON_parse P request_body = Some (JObj fields) ->
  own (js "code") fields = Some (JStr code) ->
  code <> [] ->
  own (js "language") fields = None
  \/ (exists l, own (js "language") fields = Some (JStr l)) ->
  GEMINI_API_KEY W = Some key ->
  key <> [] ->
  fetch W req = Some resp ->
  ok resp = true ->
  JSON_parse P (text resp) = Some data ->
  data <> JNull ->
  ask_upstream P W request_body =
  ([Fetched req],
   inr (inr (opt_member
               (opt_index0
                  (opt_member
                     (opt_member (opt_index0 (prop data (js "candidates"))) (js "content"))
                     (js "parts")))
               (js "text")))).
Proof.
  intros lang req Hp Hc Hne Hl Hk Hkne Hf Hok Hd Hdn.
  unfold ask_upstream, json_parse, do_fetch, console_error, emit.
  rewrite Hp, bind_ret, !member_not_null, !bind_ret by discriminate.
  cbn [prop]. rewrite Hc.
  destruct code as [|c0 code]; [contradiction|]. cbn [truthy negb].
  rewrite Hk. destruct key as [|k0 key]; [contradiction|].
  assert (Hlang : interpolate P
            match own (js "language") fields with
            | Some l => if truthy (own (js "language") fields) then l
                        else JStr (js "javascript")
            | None => JStr (js "javascript")
            end = ret lang).
  { subst lang. destruct Hl as [-> | [l ->]]; [reflexivity|].
    destruct l; reflexivity. }
  rewrite Hlang, bind_ret. cbn [interpolate]. rewrite bind_ret.
  rewrite bind_pair. fold req. rewrite Hf. unfold ret at 1 2. cbn [fst snd app].
  rewrite bind_pair, Hok. cbn [negb]. rewrite Hd, bind_ret, member_not_null, bind_ret by assumption.
  unfold ret. cbn [fst snd app]. reflexivity.
Qed.

(** What [POST] answers once the first phase has fallen through. *)
Lemma POST_after_upstream
  (P : Platform) (W : World) (request_body : jsstring) (tr : list Event) (v : value) :
  ask_upstream P W request_body = (tr, inr (inr v)) ->
  POST P W request_body =
  match adapt_reply P v with
  | (_, inr r) => (tr, r)
  | (_, inl e) =>
      (tr ++ [ConsoleError (js "Analysis error:") (inr e)],
       error_response (js "Internal server error") 500)
  end.
Proof.
  intros H. unfold POST, POST_try. rewrite H, bind_pair.
  assert (Ht : fst (adapt_reply P v) = []).
  { unfold adapt_reply, string_match, json_parse.
    destruct (truthy v); cbn [negb]; [|reflexivity].
    destruct v as [[| | |s| |]|]; try reflexivity.
    rewrite bind_ret. destruct (match_braces s) as [span|]; [|reflexivity].
    destruct (JSON_parse P span); reflexivity. }
  destruct (adapt_reply P v) as [t [e|r]]; cbn [fst snd] in *; subst t;
    rewrite app_nil_r; reflexivity.
Qed.

Lemma adapt_reply_string (P : Platform) (text : jsstring) :
  text <> [] ->
  adapt_reply P (Some (JStr text)) =
  match match_braces text with
  | None => ret (error_response (js "Invalid analysis format") 500)
  | Some span =>
      match JSON_parse P span with
      | None => throw SyntaxError
      | Some analysisResult => ret {| payload := analysisResult; status := 200 |}
      end
  end.
Proof.
  intros H. unfold adapt_reply, string_match, json_parse.
  destruct text as [|c text]; [contradiction|]. cbn [truthy negb].
  rewrite bind_ret. destruct (match_braces (c :: text)) as [span|]; [|reflexivity].
  destruct (JSON_parse P span); reflexivity.
Qed.

Lemma POST_on_reply_text
  (P : Platform) (W : World) (request_body : jsstring) (tr : list Event) (text : jsstring) :
  ask_upstream P W request_body = (tr, inr (inr (Some (JStr text)))) ->
  text <> [] ->
  POST P W request_body =
  match match_braces text with
  | None => (tr, error_response (js "Invalid analysis format") 500)
  | Some span =>
      match JSON_parse P span with
      | None =>
          (tr ++ [ConsoleError (js "Analysis error:") (inr SyntaxError)],
           error_response (js "Internal server error") 500)
      | Some analysisResult => (tr, {| payload := analysisResult; status := 200 |})
      end
  end.
Proof.
  intros Hup Hne.
  rewrite (POST_after_upstream _ _ _ _ _ Hup), (adapt_reply_string P text Hne).
  destruct (match_braces text) as [span|]; [|reflexivity].
  destruct (JSON_parse P span); reflexivity.
Qed.

(** C10: a request whose body is not valid JSON is answered inside the
    handler: parsing throws in the [try] block, and the [catch] returns
    status 500 with the message [Internal server error] (not the 400 of a
    missing code); nothing is fetched. *)
Theorem invalid_request_body (P : Platform) (W : World) (request_body : jsstring) :
  JSON_parse P request_body = None ->
  POST_try P W request_body = throw SyntaxError /\
  snd (POST P W request_body) = error_response (js "Internal server error") 500 /\
  status (snd (POST P W request_body)) = 500 /\
  fetch_count (fst (POST P W request_body)) = 0%nat.
Proof.
  intros H. rewrite (POST_unparsable P W request_body H). split.
  - unfold POST_try, ask_upstream, json_parse. rewrite H. reflexivity.
  - repeat split; reflexivity.
Qed.

(** The theorem at a form-encoded body, which is not JSON. *)
Lemma invalid_request_body_witness :
  snd (POST platform (world_replying short_reply) (js "code=x&language=js"))
  = error_response (js "Internal server error") 500 /\
  fetch_count (fst (POST platform (world_replying short_reply) (js "code=x&language=js")))
  = 0%nat.
Proof.
  destruct (invalid_request_body platform (world_replying short_reply)
              (js "code=x&language=js")) as (_ & H1 & _ & H2).
  - vm_compute. reflexivity.
  - split; assumption.
Defined.

(** C1, as the handler has it: a request whose [code] is the empty string
    is answered 400 [Code is required], and [fetch] is never called. *)
Theorem empty_code_rejected
  (P : Platform) (W : World) (request_body : jsstring) (parsed : Json) :
  JSON_parse P request_body = Some parsed ->
  prop parsed (js "code") = Some (JStr []) ->
  snd (POST P W request_body) = error_response (js "Code is required") 400 /\
  status (snd (POST P W request_body)) = 400 /\
  fetch_count (fst (POST P W request_body)) = 0%nat.
Proof.
  intros Hp Hc.
  rewrite (POST_falsy_code P W request_body parsed Hp).
  - repeat split; reflexivity.
  - intros ->. discriminate.
  - rewrite Hc. reflexivity.
Qed.

(** The theorem at a request whose [code] is the empty string. *)
Lemma empty_code_rejected_witness :
  snd (POST platform (world_replying short_reply) (request_with_code []))
  = error_response (js "Code is required") 400 /\
  fetch_count (fst (POST platform (world_replying short_reply) (request_with_code [])))
  = 0%nat.
Proof.
  destruct (empty_code_rejected platform (world_replying short_reply)
              (request_with_code [])
              (JObj [(js "code", JStr []); (js "language", JStr (js "javascript"))]))
    as (H1 & _ & H2).
  - vm_compute. reflexivity.
  - vm_compute. reflexivity.
  - split; assumption.
Defined.

(** C1 fails for a code of white space only: the guard is [!code], and a
    non-empty string is truthy.  With three spaces for [code] the request
    is forwarded (one call to [fetch]) and the upstream's analysis comes
    back with status 200. *)
Lemma blank_code_is_forwarded :
  forallb is_whitespace (js "   ") = true /\
  JSON_parse platform (request_with_code (js "   "))
  = Some (JObj [(js "code", JStr (js "   ")); (js "language", JStr (js "javascript"))]) /\
  POST platform (world_replying (stringify full_analysis)) (request_with_code (js "   "))
  = ([Fetched (sent (js "   "))], {| payload := full_analysis; status := 200 |}) /\
  fetch_count [Fetched (sent (js "   "))] = 1%nat /\
  {| payload := full_analysis; status := 200 |}
  <> error_response (js "Code is required") 400.
Proof.
  split; [reflexivity|].
  split; [vm_compute; reflexivity|].
  split; [vm_compute; reflexivity|].
  split; [reflexivity | discriminate].
Qed.

(** C2, as the handler has it.  Once the upstream has replied with a
    non-empty candidate text, one call has been made, and the answer
    depends on the span the pattern matches: without a span, 500 [Invalid
    analysis format]; with a span that is not valid JSON, the [catch]
    answers 500 [Internal server error]; with a span that parses, the
    parsed value is returned as it is with status 200, whatever fields it
    has. *)
Theorem upstream_reply_outcomes
  (P : Platform) (W : World) (request_body : jsstring) (tr : list Event) (text : jsstring) :
  ask_upstream P W request_body = (tr, inr (inr (Some (JStr text)))) ->
  text <> [] ->
  fetch_count tr = 1%nat /\
  match match_braces text with
  | None =>
      POST P W request_body = (tr, error_response (js "Invalid analysis format") 500)
  | Some span =>
      match JSON_parse P span with
      | None =>
          POST P W request_body =
          (tr ++ [ConsoleError (js "Analysis error:") (inr SyntaxError)],
           error_response (js "Internal server error") 500)
      | Some analysisResult =>
          POST P W request_body = (tr, {| payload := analysisResult; status := 200 |})
      end
  end.
Proof.
  intros Hup Hne. split.
  - destruct (ask_upstream_falls_through _ _ _ _ _ Hup) as (req & resp & -> & _).
    reflexivity.
  - rewrite (POST_on_reply_text _ _ _ _ _ Hup Hne).
    destruct (match_braces text) as [span|]; [|reflexivity].
    destruct (JSON_parse P span); reflexivity.
Qed.

(** The theorem at a reply whose span has an unquoted key. *)
Lemma upstream_reply_outcomes_witness :
  POST platform (world_replying unquoted_reply) (request_with_code (js "x = 1"))
  = ([Fetched (sent (js "x = 1")); ConsoleError (js "Analysis error:") (inr SyntaxError)],
     error_response (js "Internal server error") 500).
Proof.
  destruct (upstream_reply_outcomes platform (world_replying unquoted_reply)
              (request_with_code (js "x = 1")) [Fetched (sent (js "x = 1"))]
              unquoted_reply) as [_ H].
  - vm_compute. reflexivity.
  - discriminate.
  - exact H.
Defined.

(** C2 fails on both counts.  A reply whose span is not valid JSON is
    answered by the [catch], with [Internal server error]; a reply whose
    span is valid JSON with the single field [score] is returned with
    status 200. *)
Lemma malformed_reply_answers :
  match_braces unquoted_reply = Some (js "{score: 75}") /\
  JSON_parse platform (js "{score: 75}") = None /\
  POST platform (world_replying unquoted_reply) (request_with_code (js "x = 1"))
  = ([Fetched (sent (js "x = 1")); ConsoleError (js "Analysis error:") (inr SyntaxError)],
     error_response (js "Internal server error") 500) /\
  error_response (js "Internal server error") 500
  <> error_response (js "Invalid analysis format") 500 /\
  POST platform (world_replying short_reply) (request_with_code (js "x = 1"))
  = ([Fetched (sent (js "x = 1"))],
     {| payload := JObj [(js "score", JNum 75%float)]; status := 200 |}) /\
  {| payload := JObj [(js "score", JNum 75%float)]; status := 200 |}
  <> error_response (js "Invalid analysis format") 500.
Proof.
  split; [vm_compute; reflexivity|].
  split; [vm_compute; reflexivity|].
  split; [vm_compute; reflexivity|].
  split; [vm_compute; discriminate|].
  split; [vm_compute; reflexivity | discriminate].
Qed.

(** C4: when the candidate text is the serialization of [j], an object
    (its serialization opens with a brace and closes with one) that
    [JSON.parse] reads back, between a prefix without opening brace and a
    suffix without closing brace, the pattern matches exactly the
    serialization and the handler returns [j] unchanged, with status 200. *)
Theorem extraction_round_trip
  (P : Platform) (W : World) (request_body : jsstring) (tr : list Event)
  (j : Json) (inner prefix suffix : jsstring) :
  ask_upstream P W request_body
  = (tr, inr (inr (Some (JStr (prefix ++ JSON_stringify P j ++ suffix))))) ->
  JSON_stringify P j = [LBRACE] ++ inner ++ [RBRACE] ->
  JSON_parse P (JSON_stringify P j) = Some j ->
  ~ In LBRACE prefix ->
  ~ In RBRACE suffix ->
  match_braces (prefix ++ JSON_stringify P j ++ suffix) = Some (JSON_stringify P j) /\
  POST P W request_body = (tr, {| payload := j; status := 200 |}).
Proof.
  intros Hup Hobj Hrt Hpre Hsuf.
  assert (Hm : match_braces (prefix ++ JSON_stringify P j ++ suffix)
               = Some (JSON_stringify P j)).
  { rewrite Hobj. apply match_braces_wrapped; assumption. }
  split; [exact Hm|].
  assert (Hne : prefix ++ JSON_stringify P j ++ suffix <> []).
  { rewrite Hobj. destruct prefix; discriminate. }
  rewrite (POST_on_reply_text _ _ _ _ _ Hup Hne), Hm, Hrt. reflexivity.
Qed.

(** The theorem at a full analysis between two sentences of prose. *)
Lemma extraction_round_trip_witness :
  POST platform
    (world_replying (prose_before ++ stringify full_analysis ++ prose_after))
    (request_with_code (js "x = 1"))
  = ([Fetched (sent (js "x = 1"))], {| payload := full_analysis; status := 200 |}).
Proof.
  destruct (extraction_round_trip platform
              (world_replying (prose_before ++ stringify full_analysis ++ prose_after))
              (request_with_code (js "x = 1")) [Fetched (sent (js "x = 1"))]
              full_analysis (removelast (tl (stringify full_analysis)))
              prose_before prose_after) as [_ H].
  - vm_compute. reflexivity.
  - vm_compute. reflexivity.
  - vm_compute. reflexivity.
  - vm_compute. intuition discriminate.
  - vm_compute. intuition discriminate.
  - exact H.
Defined.

End RouteHandler.

(* ================================================================== *)
(** ** The route handler, case by case *)
(* ================================================================== *)

Section RouteCases.
Import Route RefPlatform Examples Deployments Requests.

Lemma adapt_reply_trace (P : Platform) (v : value) : fst (adapt_reply P v) = [].
Proof.
  unfold adapt_reply, string_match, json_parse.
  destruct (truthy v); cbn [negb]; [|reflexivity].
  destruct v as [[| | |s| |]|]; try reflexivity.
  rewrite bind_ret. destruct (match_braces s) as [span|]; [|reflexivity].
  destruct (JSON_parse P span); reflexivity.
Qed.

(** The first phase ends in one of six ways. *)
Lemma ask_upstream_cases (P : Platform) (W : World) (request_body : jsstring) :
  (exists e, ask_upstream P W request_body = ([], inl e))
  \/ (ask_upstream P W request_body
      = ([], inr (inl (error_response (js "Code is required") 400)))
      /\ exists parsed, JSON_parse P request_body = Some parsed /\ parsed <> JNull
                        /\ truthy (prop parsed (js "code")) = false)
  \/ (ask_upstream P W request_body
      = ([], inr (inl (error_response (js "Gemini API key not configured") 500))))
  \/ (exists req e, ask_upstream P W request_body = ([Fetched req], inl e))
  \/ (exists req resp,
        ask_upstream P W request_body
        = ([Fetched req; ConsoleError (js "Gemini API error:") (inl (text resp))],
           inr (inl (error_response (js "Analysis service unavailable") 500))))
  \/ (exists req v, ask_upstream P W request_body = ([Fetched req], inr (inr v))).
Proof.
  set (r := ask_upstream P W request_body).
  assert (E : r = ask_upstream P W request_body) by reflexivity.
  clearbody r. revert E.
  unfold ask_upstream, json_parse, do_fetch, console_error, interpolate.
  destruct (JSON_parse P request_body) as [parsed|] eqn:Ep;
    [|intros ->; left; exists SyntaxError; reflexivity].
  rewrite bind_ret.
  destruct (Json_is_null parsed) as [-> | Hn];
    [intros ->; left; exists TypeError; reflexivity|].
  rewrite !member_not_null, !bind_ret by assumption.
  destruct (truthy (prop parsed (js "code"))) eqn:Ec; cbn [negb].
  2:{ intros ->. right; left. split; [reflexivity|]. exists parsed. auto. }
  destruct (GEMINI_API_KEY W) as [[|k0 key]|];
    try (intros ->; right; right; left; reflexivity).
  match goal with |- context [bind ?m _] =>
    assert (Hm : (exists s, m = ret s) \/ m = throw TypeError)
      by (destruct (match prop parsed (js "language") with Some _ => _ | None => _ end);
          try destruct (ToString P _); eauto);
    destruct Hm as [[lang ->] | ->]; [|intros ->; left; exists TypeError; reflexivity]
  end.
  rewrite bind_ret.
  match goal with |- context [bind ?m _] =>
    assert (Hm : (exists s, m = ret s) \/ m = throw TypeError)
      by (destruct (match prop parsed (js "code") with Some _ => _ | None => _ end);
          try destruct (ToString P _); eauto);
    destruct Hm as [[code_text ->] | ->]; [|intros ->; left; exists TypeError; reflexivity]
  end.
  rewrite bind_ret.
  set (req := gemini_request P (k0 :: key) (build_prompt lang code_text)).
  unfold emit. rewrite bind_pair.
  destruct (fetch W req) as [resp|] eqn:Ef.
  2:{ intros ->. do 3 right; left. exists req, NetworkError. reflexivity. }
  unfold ret at 1 2. cbn [fst snd app]. rewrite bind_pair.
  destruct (ok resp) eqn:Eok; cbn [negb].
  2:{ rewrite bind_pair. intros ->. do 4 right; left. exists req, resp. reflexivity. }
  destruct (JSON_parse P (text resp)) as [data|].
  2:{ intros ->. do 3 right; left. exists req, SyntaxError. reflexivity. }
  rewrite bind_ret.
  destruct (Json_is_null data) as [-> | Hd].
  { intros ->. do 3 right; left. exists req, TypeError. reflexivity. }
  rewrite member_not_null, bind_ret by assumption.
  intros ->. do 5 right. eexists req, _. reflexivity.
Qed.

Lemma POST_thrown
  (P : Platform) (W : World) (request_body : jsstring) (t : list Event) (e : Exn) :
  ask_upstream P W request_body = (t, inl e) ->
  POST P W request_body =
  (t ++ [ConsoleError (js "Analysis error:") (inr e)],
   error_response (js "Internal server error") 500).
Proof. intros H. unfold POST, POST_try. rewrite H. reflexivity. Qed.

Lemma POST_early
  (P : Platform) (W : World) (request_body : jsstring) (t : list Event) (r : Response) :
  ask_upstream P W request_body = (t, inr (inl r)) ->
  POST P W request_body = (t, r).
Proof.
  intros H. unfold POST, POST_try. rewrite H, bind_pair. unfold ret. cbn [fst snd].
  rewrite app_nil_r. reflexivity.
Qed.

(** What the second phase can answer. *)
Lemma adapt_reply_cases (P : Platform) (v : value) :
  (exists e, adapt_reply P v = throw e)
  \/ adapt_reply P v = ret (error_response (js "No analysis generated") 500)
  \/ adapt_reply P v = ret (error_response (js "Invalid analysis format") 500)
  \/ (exists j, adapt_reply P v = ret {| payload := j; status := 200 |}).
Proof.
  unfold adapt_reply, string_match, json_parse.
  destruct (truthy v); cbn [negb]; [|right; left; reflexivity].
  destruct v as [[| | |s| |]|]; try (left; exists TypeError; reflexivity).
  rewrite bind_ret. destruct (match_braces s) as [span|];
    [|right; right; left; reflexivity].
  destruct (JSON_parse P span) as [j|].
  - do 3 right. exists j. reflexivity.
  - left. exists SyntaxError. reflexivity.
Qed.

(** A well-formed request under a configured key reaches [fetch]; the
    rest of the first phase depends on what [fetch] gives. *)
Lemma ask_upstream_sends
  (P : Platform) (W : World) (request_body : jsstring)
  (fields : list (jsstring * Json)) (code key : jsstring) :
  well_formed P request_body fields code ->
  GEMINI_API_KEY W = Some key ->
  key <> [] ->
  ask_upstream P W request_body =
  match fetch W (outbound P key fields code) with
  | None => ([Fetched (outbound P key fields code)], inl NetworkError)
  | Some response =>
      if ok response then
        match JSON_parse P (text response) with
        | None => ([Fetched (outbound P key fields code)], inl SyntaxError)
        | Some JNull => ([Fetched (outbound P key fields code)], inl TypeError)
        | Some data =>
            ([Fetched (outbound P key fields code)],
             inr (inr (opt_member
                         (opt_index0
                            (opt_member
                               (opt_member (opt_index0 (prop data (js "candidates")))
                                  (js "content"))
                               (js "parts")))
                         (js "text"))))
        end
      else
        ([Fetched (outbound P key fields code);
          ConsoleError (js "Gemini API error:") (inl (text response))],
         inr (inl (error_response (js "Analysis service unavailable") 500)))
  end.
Proof.
  intros (Hp & Hc & Hne & Hl) Hk Hkne.
  unfold ask_upstream, json_parse, do_fetch, console_error, emit.
  rewrite Hp, bind_ret, !member_not_null, !bind_ret by discriminate.
  cbn [prop]. rewrite Hc.
  destruct code as [|c0 code]; [contradiction|]. cbn [truthy negb].
  rewrite Hk. destruct key as [|k0 key]; [contradiction|].
  assert (Hlang : interpolate P
            match own (js "language") fields with
            | Some l => if truthy (own (js "language") fields) then l
                        else JStr (js "javascript")
            | None => JStr (js "javascript")
            end = ret (language_text fields)).
  { unfold language_text. destruct Hl as [-> | [l ->]]; [reflexivity|].
    destruct l; reflexivity. }
  rewrite Hlang, bind_ret. cbn [interpolate]. rewrite bind_ret.
  rewrite bind_pair. fold (outbound P (k0 :: key) fields (c0 :: code)).
  destruct (fetch W (outbound P (k0 :: key) fields (c0 :: code))) as [resp|];
    [|reflexivity].
  unfold ret at 1 2. cbn [fst snd app]. rewrite bind_pair.
  destruct (ok resp); cbn [negb].
  2:{ rewrite bind_pair. reflexivity. }
  destruct (JSON_parse P (text resp)) as [data|]; [|reflexivity].
  rewrite bind_ret.
  destruct data; try reflexivity.
Qed.

Lemma fetch_count_app (t u : list Event) :
  fetch_count (t ++ u) = (fetch_count t + fetch_count u)%nat.
Proof. unfold fetch_count. rewrite filter_app, length_app. reflexivity. Qed.

(** The first phase calls [fetch] only past both guards. *)
Lemma ask_upstream_trace_requires
  (P : Platform) (W : World) (request_body : jsstring) :
  fst (ask_upstream P W request_body) <> [] ->
  exists parsed k key,
    JSON_parse P request_body = Some parsed /\
    truthy (prop parsed (js "code")) = true /\
    GEMINI_API_KEY W = Some (k :: key).
Proof.
  unfold ask_upstream, json_parse.
  destruct (JSON_parse P request_body) as [parsed|] eqn:Ep;
    [|intros H; exfalso; apply H; reflexivity].
  rewrite bind_ret.
  destruct (Json_is_null parsed) as [-> | Hn];
    [intros H; exfalso; apply H; reflexivity|].
  rewrite !member_not_null, !bind_ret by assumption.
  destruct (truthy (prop parsed (js "code"))) eqn:Ec; cbn [negb];
    [|intros H; exfalso; apply H; reflexivity].
  destruct (GEMINI_API_KEY W) as [[|k0 key]|];
    try (intros H; exfalso; apply H; reflexivity).
  intros _. exists parsed, k0, key. auto.
Qed.

(** X1: no retry.  Whatever the request and whatever the upstream does,
    the handler calls [fetch] at most once, and it calls it only for a
    request with a truthy [code] under a configured key. *)
Theorem at_most_one_upstream_call (P : Platform) (W : World) (request_body : jsstring) :
  (fetch_count (fst (POST P W request_body)) <= 1)%nat /\
  (fetch_count (fst (POST P W request_body)) = 1%nat ->
   exists parsed k key,
     JSON_parse P request_body = Some parsed /\
     truthy (prop parsed (js "code")) = true /\
     GEMINI_API_KEY W = Some (k :: key)).
Proof.
  assert (Hcount : fetch_count (fst (POST P W request_body))
                   = fetch_count (fst (ask_upstream P W request_body))).
  { destruct (ask_upstream P W request_body) as [t [e | [r | v]]] eqn:E.
    - rewrite (POST_thrown _ _ _ _ _ E). cbn [fst]. rewrite fetch_count_app.
      cbn. lia.
    - rewrite (POST_early _ _ _ _ _ E). reflexivity.
    - rewrite (POST_after_upstream _ _ _ _ _ E).
      destruct (adapt_reply P v) as [t' [e | r]]; cbn [fst];
        [rewrite fetch_count_app; cbn; lia | reflexivity]. }
  rewrite Hcount. split.
  - destruct (ask_upstream_cases P W request_body)
      as [(e & ->) | [[-> _] | [-> | [(req & e & ->) | [(req & resp & ->)
                                                         | (req & v & ->)]]]]];
      cbn; lia.
  - intros H. apply ask_upstream_trace_requires.
    intros E. rewrite E in H. discriminate.
Qed.

(** X2: the answers form a closed set.  Every request gets either status
    200 with the parsed analysis, after one upstream call, or an error
    body [{ error: message }] whose message and status are one of the six
    rows of [error_table]. *)
Theorem answers_are_closed (P : Platform) (W : World) (request_body : jsstring) :
  (exists j, snd (POST P W request_body) = {| payload := j; status := 200 |}
             /\ fetch_count (fst (POST P W request_body)) = 1%nat)
  \/ (exists message st,
        In (message, st) error_table /\
        snd (POST P W request_body) = error_response message st).
Proof.
  destruct (ask_upstream_cases P W request_body)
    as [(e & E) | [[E _] | [E | [(req & e & E) | [(req & resp & E) | (req & v & E)]]]]].
  - right. exists (js "Internal server error"), 500. rewrite (POST_thrown _ _ _ _ _ E).
    split; [cbn; tauto | reflexivity].
  - right. exists (js "Code is required"), 400. rewrite (POST_early _ _ _ _ _ E).
    split; [cbn; tauto | reflexivity].
  - right. exists (js "Gemini API key not configured"), 500.
    rewrite (POST_early _ _ _ _ _ E). split; [cbn; tauto | reflexivity].
  - right. exists (js "Internal server error"), 500. rewrite (POST_thrown _ _ _ _ _ E).
    split; [cbn; tauto | reflexivity].
  - right. exists (js "Analysis service unavailable"), 500.
    rewrite (POST_early _ _ _ _ _ E). split; [cbn; tauto | reflexivity].
  - rewrite (POST_after_upstream _ _ _ _ _ E).
    destruct (adapt_reply_cases P v) as [(e & ->) | [-> | [-> | (j & ->)]]].
    + right. exists (js "Internal server error"), 500. split; [cbn; tauto | reflexivity].
    + right. exists (js "No analysis generated"), 500. split; [cbn; tauto | reflexivity].
    + right. exists (js "Invalid analysis format"), 500.
      split; [cbn; tauto | reflexivity].
    + left. exists j. split; reflexivity.
Qed.

(** X3: the client error.  The status is 400 exactly when the body parses
    to a value other than [null] whose [code] is missing or falsy; the
    answer is then [Code is required], with no effect at all. *)
Theorem status_400_iff (P : Platform) (W : World) (request_body : jsstring) :
  (status (snd (POST P W request_body)) = 400 <->
   exists parsed,
     JSON_parse P request_body = Some parsed /\ parsed <> JNull /\
     truthy (prop parsed (js "code")) = false) /\
  (status (snd (POST P W request_body)) = 400 ->
   POST P W request_body = ([], error_response (js "Code is required") 400)).
Proof.
  assert (Hif : (exists parsed,
                   JSON_parse P request_body = Some parsed /\ parsed <> JNull /\
                   truthy (prop parsed (js "code")) = false) ->
                POST P W request_body = ([], error_response (js "Code is required") 400)).
  { intros (parsed & Hp & Hn & Hc). exact (POST_falsy_code P W _ parsed Hp Hn Hc). }
  assert (Honly : status (snd (POST P W request_body)) = 400 ->
                  exists parsed,
                    JSON_parse P request_body = Some parsed /\ parsed <> JNull /\
                    truthy (prop parsed (js "code")) = false).
  { destruct (ask_upstream_cases P W request_body)
      as [(e & E) | [[E H] | [E | [(req & e & E) | [(req & resp & E) | (req & v & E)]]]]].
    - rewrite (POST_thrown _ _ _ _ _ E). discriminate.
    - intros _. exact H.
    - rewrite (POST_early _ _ _ _ _ E). discriminate.
    - rewrite (POST_thrown _ _ _ _ _ E). discriminate.
    - rewrite (POST_early _ _ _ _ _ E). discriminate.
    - rewrite (POST_after_upstream _ _ _ _ _ E).
      destruct (adapt_reply_cases P v) as [(e & ->) | [-> | [-> | (j & ->)]]];
        discriminate. }
  split; [split|].
  - exact Honly.
  - intros H. rewrite (Hif H). reflexivity.
  - intros H. exact (Hif (Honly H)).
Qed.

(** X4: a missing credential is a server error of its own.  When [code]
    is truthy and the key is unset or empty, the answer is 500 [Gemini API
    key not configured], and the upstream is not called. *)
Theorem missing_key
  (P : Platform) (W : World) (request_body : jsstring) (parsed : Json) :
  JSON_parse P request_body = Some parsed ->
  truthy (prop parsed (js "code")) = true ->
  GEMINI_API_KEY W = None \/ GEMINI_API_KEY W = Some [] ->
  POST P W request_body
  = ([], error_response (js "Gemini API key not configured") 500).
Proof.
  intros Hp Hc Hk.
  assert (Hn : parsed <> JNull) by (intros ->; discriminate).
  apply POST_early. unfold ask_upstream, json_parse.
  rewrite Hp, bind_ret, !member_not_null, !bind_ret by assumption.
  rewrite Hc. cbn [negb]. destruct Hk as [-> | ->]; reflexivity.
Qed.

(** The theorem in a deployment without key. *)
Lemma missing_key_witness :
  POST platform world_without_key (request_with_code (js "x = 1"))
  = ([], error_response (js "Gemini API key not configured") 500).
Proof.
  apply (missing_key platform world_without_key (request_with_code (js "x = 1"))
           (JObj [(js "code", JStr (js "x = 1")); (js "language", JStr (js "javascript"))])).
  - vm_compute. reflexivity.
  - vm_compute. reflexivity.
  - left. reflexivity.
Defined.

(** X5: an upstream failure status.  When the upstream answers a
    well-formed request with a status that is not a success, the handler
    answers 500 [Analysis service unavailable]; the upstream body goes to
    the console and nowhere else, and the call is not repeated. *)
Theorem upstream_unavailable
  (P : Platform) (W : World) (request_body : jsstring)
  (fields : list (jsstring * Json)) (code key : jsstring) (response : FetchResponse) :
  well_formed P request_body fields code ->
  GEMINI_API_KEY W = Some key ->
  key <> [] ->
  fetch W (outbound P key fields code) = Some response ->
  ok response = false ->
  POST P W request_body
  = ([Fetched (outbound P key fields code);
      ConsoleError (js "Gemini API error:") (inl (text response))],
     error_response (js "Analysis service unavailable") 500).
Proof.
  intros Hw Hk Hkne Hf Hok. apply POST_early.
  rewrite (ask_upstream_sends P W request_body fields code key Hw Hk Hkne), Hf, Hok.
  reflexivity.
Qed.

(** The theorem for an upstream that answers with a quota message. *)
Lemma upstream_unavailable_witness :
  POST platform (world_answering false (js "quota exceeded for key"))
    (request_with_code (js "x = 1"))
  = ([Fetched (sent (js "x = 1"));
      ConsoleError (js "Gemini API error:") (inl (js "quota exceeded for key"))],
     error_response (js "Analysis service unavailable") 500).
Proof.
  apply (upstream_unavailable platform
           (world_answering false (js "quota exceeded for key"))
           (request_with_code (js "x = 1"))
           [(js "code", JStr (js "x = 1")); (js "language", JStr (js "javascript"))]
           (js "x = 1") api_key
           {| ok := false; text := js "quota exceeded for key" |}).
  - split; [vm_compute; reflexivity|].
    split; [reflexivity|]. split; [discriminate|].
    right. exists (js "javascript"). reflexivity.
  - reflexivity.
  - discriminate.
  - reflexivity.
  - reflexivity.
Defined.

(** X6: an upstream that cannot be used.  When [fetch] rejects, or the
    upstream answers a success whose body is not JSON or is [null], the
    exception is caught: the handler logs it and answers 500 [Internal
    server error], after its single call. *)
Theorem upstream_unusable
  (P : Platform) (W : World) (request_body : jsstring)
  (fields : list (jsstring * Json)) (code key : jsstring) :
  well_formed P request_body fields code ->
  GEMINI_API_KEY W = Some key ->
  key <> [] ->
  fetch W (outbound P key fields code) = None
  \/ (exists response,
        fetch W (outbound P key fields code) = Some response /\ ok response = true /\
        (JSON_parse P (text response) = None
         \/ JSON_parse P (text response) = Some JNull)) ->
  exists e,
    POST P W request_body
    = ([Fetched (outbound P key fields code);
        ConsoleError (js "Analysis error:") (inr e)],
       error_response (js "Internal server error") 500).
Proof.
  intros Hw Hk Hkne H.
  pose proof (ask_upstream_sends P W request_body fields code key Hw Hk Hkne) as E.
  destruct H as [Hf | (response & Hf & Hok & [Hd | Hd])];
    rewrite Hf in E; rewrite ?Hok, ?Hd in E;
    eexists; rewrite (POST_thrown _ _ _ _ _ E); reflexivity.
Qed.

(** The theorem for an upstream that cannot be reached. *)
Lemma upstream_unusable_witness :
  exists e,
    POST platform world_unreachable (request_with_code (js "x = 1"))
    = ([Fetched (sent (js "x = 1")); ConsoleError (js "Analysis error:") (inr e)],
       error_response (js "Internal server error") 500).
Proof.
  apply (upstream_unusable platform world_unreachable (request_with_code (js "x = 1"))
           [(js "code", JStr (js "x = 1")); (js "language", JStr (js "javascript"))]
           (js "x = 1") api_key).
  - split; [vm_compute; reflexivity|].
    split; [reflexivity|]. split; [discriminate|].
    right. exists (js "javascript"). reflexivity.
  - reflexivity.
  - discriminate.
  - left. reflexivity.
Defined.

(** X7: a reply without candidate text.  When the path
    [candidates[0].content.parts[0].text] of the upstream reply leads to
    nothing, or to a falsy value such as the empty string, the answer is
    500 [No analysis generated]. *)
Theorem no_candidate_text
  (P : Platform) (W : World) (request_body : jsstring) (tr : list Event) (v : value) :
  ask_upstream P W request_body = (tr, inr (inr v)) ->
  truthy v = false ->
  POST P W request_body = (tr, error_response (js "No analysis generated") 500).
Proof.
  intros Hup Hv. rewrite (POST_after_upstream _ _ _ _ _ Hup).
  unfold adapt_reply. rewrite Hv. reflexivity.
Qed.

(** The theorem for a reply with an empty list of candidates. *)
Lemma no_candidate_text_witness :
  POST platform (world_answering true (jsq "{'candidates': []}"))
    (request_with_code (js "x = 1"))
  = ([Fetched (sent (js "x = 1"))], error_response (js "No analysis generated") 500).
Proof.
  apply (no_candidate_text platform (world_answering true (jsq "{'candidates': []}"))
           (request_with_code (js "x = 1")) [Fetched (sent (js "x = 1"))] None).
  - vm_compute. reflexivity.
  - reflexivity.
Defined.

(** X8: a candidate text that is not a string.  A truthy text that is a
    number, a boolean, an array or an object has no [match] method: the
    call throws, and the handler answers 500 [Internal server error]. *)
Theorem text_not_a_string
  (P : Platform) (W : World) (request_body : jsstring) (tr : list Event) (v : Json) :
  ask_upstream P W request_body = (tr, inr (inr (Some v))) ->
  truthy (Some v) = true ->
  (forall s, v <> JStr s) ->
  POST P W request_body
  = (tr ++ [ConsoleError (js "Analysis error:") (inr TypeError)],
     error_response (js "Internal server error") 500).
Proof.
  intros Hup Hv Hs. rewrite (POST_after_upstream _ _ _ _ _ Hup).
  unfold adapt_reply. rewrite Hv. cbn [negb].
  destruct v; try reflexivity. exfalso. exact (Hs s eq_refl).
Qed.

(** The theorem for a reply whose text is the number 42. *)
Lemma text_not_a_string_witness :
  POST platform
    (world_answering true
       (jsq "{'candidates': [{'content': {'parts': [{'text': 42}]}}]}"))
    (request_with_code (js "x = 1"))
  = ([Fetched (sent (js "x = 1")); ConsoleError (js "Analysis error:") (inr TypeError)],
     error_response (js "Internal server error") 500).
Proof.
  apply (text_not_a_string platform
           (world_answering true
              (jsq "{'candidates': [{'content': {'parts': [{'text': 42}]}}]}"))
           (request_with_code (js "x = 1")) [Fetched (sent (js "x = 1"))]
           (JNum 42%float)).
  - vm_compute. reflexivity.
  - vm_compute. reflexivity.
  - discriminate.
Defined.

(** X9: a request that is JSON but not an object.  The body [null] makes
    the destructuring throw, which the [catch] turns into 500 [Internal
    server error]; any other value that is not an object has no [code],
    and is answered 400 [Code is required]. *)
Theorem request_not_an_object
  (P : Platform) (W : World) (request_body : jsstring) (parsed : Json) :
  JSON_parse P request_body = Some parsed ->
  (forall fields, parsed <> JObj fields) ->
  POST P W request_body =
  match parsed with
  | JNull => ([ConsoleError (js "Analysis error:") (inr TypeError)],
              error_response (js "Internal server error") 500)
  | _ => ([], error_response (js "Code is required") 400)
  end.
Proof.
  intros Hp Hobj. destruct parsed;
    try (apply (POST_falsy_code P W request_body _ Hp); [discriminate | reflexivity]).
  - apply (POST_thrown P W request_body [] TypeError).
    unfold ask_upstream, json_parse. rewrite Hp. reflexivity.
  - exfalso. exact (Hobj fields eq_refl).
Qed.

(** The theorem for a body that is an array. *)
Lemma request_not_an_object_witness :
  POST platform (world_replying short_reply) (js "[1, 2]")
  = ([], error_response (js "Code is required") 400).
Proof.
  apply (request_not_an_object platform (world_replying short_reply) (js "[1, 2]")
           (JArr [JNum 1%float; JNum 2%float])).
  - vm_compute. reflexivity.
  - discriminate.
Defined.

Lemma match_braces_none_iff (text : jsstring) :
  match_braces text = None <->
  forall a b c, text <> a ++ [LBRACE] ++ b ++ [RBRACE] ++ c.
Proof.
  split; [apply match_braces_none|].
  intros H. destruct (match_braces text) as [span|] eqn:E; [|reflexivity].
  destruct (match_braces_some text span E) as (prefix & inner & suffix & Ht & Hs & _).
  exfalso. apply (H prefix inner suffix). rewrite Ht, Hs, <- !app_assoc. reflexivity.
Qed.

(** X10: what the pattern [/\{[\s\S]*\}/] extracts.  It matches exactly
    when the text splits into a prefix without opening brace, a span that
    opens with a brace and closes with one, and a suffix without closing
    brace; the match is that span, from the first opening brace of the
    text to its last closing brace, nested braces and all. *)
Theorem pattern_spans_first_to_last (text span : jsstring) :
  match_braces text = Some span <->
  exists prefix inner suffix,
    text = prefix ++ span ++ suffix /\
    span = [LBRACE] ++ inner ++ [RBRACE] /\
    ~ In LBRACE prefix /\ ~ In RBRACE suffix.
Proof.
  split; [apply match_braces_some|].
  intros (prefix & inner & suffix & -> & -> & Hp & Hs).
  apply match_braces_wrapped; assumption.
Qed.

(** X11: extracting again changes nothing: the span the pattern matched
    is matched whole by the pattern. *)
Theorem rematch_is_identity (text span : jsstring) :
  match_braces text = Some span -> match_braces span = Some span.
Proof.
  intros H. destruct (match_braces_some text span H) as (_ & inner & _ & _ & -> & _).
  assert (G : ~ In LBRACE [] /\ ~ In RBRACE []) by (split; intros []).
  pose proof (match_braces_wrapped [] inner [] (proj1 G) (proj2 G)) as M.
  rewrite app_nil_r in M. exact M.
Qed.

(** The theorem on a reply with a brace left open in its prose. *)
Lemma rematch_is_identity_witness :
  match_braces (js "{a} and {b") = Some (js "{a}") /\
  match_braces (js "{a}") = Some (js "{a}").
Proof.
  split; [reflexivity|].
  apply (rematch_is_identity (js "{a} and {b") (js "{a}")). reflexivity.
Defined.

(** X12: [Invalid analysis format] means no braces.  Once the upstream
    has replied with a non-empty candidate text, the handler answers 500
    [Invalid analysis format] exactly when no closing brace follows an
    opening brace anywhere in the text. *)
Theorem invalid_format_iff_no_span
  (P : Platform) (W : World) (request_body : jsstring) (tr : list Event) (text : jsstring) :
  ask_upstream P W request_body = (tr, inr (inr (Some (JStr text)))) ->
  text <> [] ->
  (snd (POST P W request_body) = error_response (js "Invalid analysis format") 500
   <-> forall a b c, text <> a ++ [LBRACE] ++ b ++ [RBRACE] ++ c).
Proof.
  intros Hup Hne. rewrite <- match_braces_none_iff.
  rewrite (POST_on_reply_text _ _ _ _ _ Hup Hne).
  destruct (match_braces text) as [span|].
  - destruct (JSON_parse P span); split; discriminate.
  - split; reflexivity.
Qed.

(** The theorem for a reply in plain prose. *)
Lemma invalid_format_iff_no_span_witness :
  snd (POST platform (world_replying (js "I cannot analyse this code."))
         (request_with_code (js "x = 1")))
  = error_response (js "Invalid analysis format") 500.
Proof.
  apply (invalid_format_iff_no_span platform
           (world_replying (js "I cannot analyse this code."))
           (request_with_code (js "x = 1")) [Fetched (sent (js "x = 1"))]
           (js "I cannot analyse this code.")).
  - vm_compute. reflexivity.
  - discriminate.
  - apply match_braces_none. reflexivity.
Defined.

(** X13: the one request that leaves the handler.  For a well-formed
    request under a configured key, whatever the upstream does, the first
    effect is a [fetch] of the request built from the code and the
    language; the language is [javascript] when the request names none or
    an empty one, and the prompt holds the code verbatim. *)
Theorem outbound_request
  (P : Platform) (W : World) (request_body : jsstring)
  (fields : list (jsstring * Json)) (code key : jsstring) :
  well_formed P request_body fields code ->
  GEMINI_API_KEY W = Some key ->
  key <> [] ->
  (exists rest,
     fst (POST P W request_body)
     = Fetched (gemini_request P key (build_prompt (language_text fields) code)) :: rest
     /\ fetch_count rest = 0%nat) /\
  (own (js "language") fields = None \/ own (js "language") fields = Some (JStr []) ->
   language_text fields = js "javascript") /\
  includes (build_prompt (language_text fields) code) code = true /\
  includes (build_prompt (language_text fields) code) (language_text fields) = true.
Proof.
  intros Hw Hk Hkne. split; [|split; [|split]].
  - pose proof (ask_upstream_sends P W request_body fields code key Hw Hk Hkne) as E.
    fold (outbound P key fields code).
    destruct (ask_upstream P W request_body) as [t [e | [r | v]]] eqn:Ea.
    + rewrite (POST_thrown _ _ _ _ _ Ea). cbn [fst].
      destruct (fetch W (outbound P key fields code)) as [resp|];
        [destruct (ok resp); [destruct (JSON_parse P (text resp)) as [[]|]|]|];
        inversion E; subst; eexists; split; reflexivity.
    + rewrite (POST_early _ _ _ _ _ Ea). cbn [fst].
      destruct (fetch W (outbound P key fields code)) as [resp|];
        [destruct (ok resp); [destruct (JSON_parse P (text resp)) as [[]|]|]|];
        inversion E; subst; eexists; split; reflexivity.
    + rewrite (POST_after_upstream _ _ _ _ _ Ea).
      assert (Ht : t = [Fetched (outbound P key fields code)]).
      { destruct (fetch W (outbound P key fields code)) as [resp|];
          [destruct (ok resp); [destruct (JSON_parse P (text resp)) as [[]|]|]|];
          inversion E; reflexivity. }
      subst t. destruct (adapt_reply P v) as [t' [e | r]]; cbn [fst];
        eexists; split; reflexivity.
  - unfold language_text. intros [-> | ->]; reflexivity.
  - apply includes_iff. unfold build_prompt.
    exists (js "You are a senior code security and performance auditor. Analyze the following "
            ++ language_text fields ++
            js " code and provide a comprehensive security and performance audit.

Code to analyze:
```" ++ language_text fields ++ [NL]).
    eexists. rewrite <- !app_assoc. reflexivity.
  - apply includes_iff. unfold build_prompt.
    exists (js "You are a senior code security and performance auditor. Analyze the following ").
    eexists. reflexivity.
Qed.

(** The theorem for a request that names no language. *)
Lemma outbound_request_witness :
  exists rest,
    fst (POST platform (world_replying short_reply) (jsq "{'code': 'x = 1'}"))
    = Fetched (gemini_request platform api_key
                 (build_prompt (js "javascript") (js "x = 1"))) :: rest
    /\ fetch_count rest = 0%nat.
Proof.
  apply (outbound_request platform (world_replying short_reply) (jsq "{'code': 'x = 1'}")
           [(js "code", JStr (js "x = 1"))] (js "x = 1") api_key).
  - split; [vm_compute; reflexivity|].
    split; [reflexivity|]. split; [discriminate|]. left. reflexivity.
  - reflexivity.
  - discriminate.
Defined.

End RouteCases.

(* ================================================================== *)
(** ** The mock analyzer: further properties *)
(* ================================================================== *)

Section MockCoverage.
Import Mock Examples.

(** A substring of a text is a substring of every text around it. *)
Lemma includes_extend (before code after sub : jsstring) :
  includes code sub = true -> includes (before ++ code ++ after) sub = true.
Proof.
  rewrite !includes_iff. intros (a & b & ->).
  exists (before ++ a), (b ++ after). rewrite <- !app_assoc. reflexivity.
Qed.

Lemma includes_cons (c : codeunit) (s sub : jsstring) :
  includes s sub = true -> includes (c :: s) sub = true.
Proof. intros H. simpl. rewrite H. apply orb_true_r. Qed.

(** A substring without line feed lies within one line. *)
Lemma split_head_prefix (sub rest : jsstring) :
  ~ In NL sub ->
  exists tail pieces, split (sub ++ rest) NL = (sub ++ tail) :: pieces.
Proof.
  induction sub as [|c sub IH]; intros H.
  - simpl. pose proof (split_not_nil rest NL).
    destruct (split rest NL) as [|piece pieces]; [contradiction|].
    exists piece, pieces. reflexivity.
  - simpl. destruct (N.eqb_spec c NL) as [->|_]; [exfalso; apply H; now left|].
    destruct IH as (tail & pieces & ->); [intros Hin; apply H; now right|].
    exists tail, pieces. reflexivity.
Qed.

Lemma includes_some_line (code sub : jsstring) :
  includes code sub = true -> ~ In NL sub ->
  exists l, In l (split code NL) /\ includes l sub = true.
Proof.
  rewrite includes_iff. intros (before & after & ->) Hnl.
  induction before as [|c before IH].
  - destruct (split_head_prefix sub after Hnl) as (tail & pieces & E).
    simpl. rewrite E. exists (sub ++ tail). split; [now left|].
    apply includes_iff. exists [], tail. reflexivity.
  - destruct IH as (l & Hin & Hl). simpl.
    destruct (N.eqb c NL).
    + exists l. split; [now right | exact Hl].
    + destruct (split (before ++ sub ++ after) NL) as [|piece pieces];
        [contradiction|].
      destruct Hin as [<- | Hin].
      * exists (c :: piece). split; [now left | apply includes_cons; exact Hl].
      * exists l. split; [now right | exact Hl].
Qed.

(** The first element satisfying a predicate, when there is one. *)
Lemma first_satisfying {A : Type} (p : A -> bool) (l : list A) :
  (exists x, In x l /\ p x = true) ->
  exists before x after,
    l = before ++ x :: after /\ (forall y, In y before -> p y = false) /\ p x = true.
Proof.
  induction l as [|a l IH]; intros (x & Hin & Hx); [contradiction|].
  destruct (p a) eqn:Ea.
  - exists [], a, l. split; [reflexivity|]. split; [intros y []| exact Ea].
  - destruct Hin as [-> | Hin]; [congruence|].
    destruct IH as (before & y & after & -> & Hb & Hy); [exists x; auto|].
    exists (a :: before), y, after. split; [reflexivity|]. split; [|exact Hy].
    intros z [<- | Hz]; [exact Ea | exact (Hb z Hz)].
Qed.

Lemma findIndex_from_range {A : Type} (p : A -> bool) (l : list A) (i : Z) :
  0 <= i ->
  findIndex_from p l i = -1 \/ i <= findIndex_from p l i < i + Z.of_nat (List.length l).
Proof.
  revert i; induction l as [|x l IH]; intros i Hi; simpl; [left; reflexivity|].
  destruct (p x); [right; lia|].
  destruct (IH (i + 1)) as [-> | H]; [lia | left; reflexivity | right; lia].
Qed.

Lemma findIndex_range {A : Type} (p : A -> bool) (l : list A) :
  -1 <= findIndex p l < Z.of_nat (List.length l).
Proof.
  unfold findIndex. destruct (findIndex_from_range p l 0) as [-> | H]; lia.
Qed.

(** The issues of a result, one per rule that fired. *)
Lemma issues_of_rules (code : jsstring) :
  fst (run_rules code) =
  (if includes code (js "SELECT") && includes code (js "+")
   then [ {| line := findIndex (fun l => includes l (js "SELECT") && includes l (js "+"))
                       (split code NL) + 1;
             severity := error;
             message := js "SQL injection vulnerability detected";
             type := js "Security";
             suggestion := Some (js "Use parameterized queries or prepared statements") |} ]
   else [])
  ++ (if includes code (js "eval(")
      then [ {| line := findIndex (fun l => includes l (js "eval")) (split code NL) + 1;
                severity := error;
                message := js "Use of eval() function is dangerous";
                type := js "Security";
                suggestion := Some (js "Avoid eval() and use safer alternatives") |} ]
      else [])
  ++ (if includes code (js "console.log")
      then [ {| line := findIndex (fun l => includes l (js "console.log"))
                          (split code NL) + 1;
                severity := warning;
                message := js "Console.log statements should be removed in production";
                type := js "Best Practice";
                suggestion := Some (js "Remove or replace with proper logging") |} ]
      else []).
Proof.
  unfold run_rules, rule_sql, rule_eval, rule_console.
  destruct (includes code (js "SELECT") && includes code (js "+"));
    destruct (includes code (js "eval("));
    destruct (includes code (js "console.log")); reflexivity.
Qed.

Lemma findIndex_found {A : Type} (p : A -> bool) (l : list A) :
  (exists x, In x l /\ p x = true) ->
  exists before x after,
    l = before ++ x :: after /\ (forall y, In y before -> p y = false) /\ p x = true /\
    findIndex p l = Z.of_nat (List.length before).
Proof.
  intros H. destruct (first_satisfying p l H) as (before & x & after & -> & Hb & Hx).
  exists before, x, after. repeat split; try assumption.
  apply findIndex_first; assumption.
Qed.

Lemma findIndex_missing {A : Type} (p : A -> bool) (l : list A) :
  findIndex p l = -1 -> forall x, In x l -> p x = false.
Proof.
  intros H x Hin. destruct (p x) eqn:E; [|reflexivity].
  destruct (findIndex_found p l) as (before & _ & _ & _ & _ & _ & F); [exists x; auto|].
  lia.
Qed.

Lemma eval_paren_has_eval (s : jsstring) :
  includes s (js "eval(") = true -> includes s (js "eval") = true.
Proof.
  rewrite !includes_iff. intros (a & b & ->).
  exists a, (js "(" ++ b). reflexivity.
Qed.

(** X14: text can only cost points.  Whatever is written before and after
    a text, the result has at least as many issues and no higher score. *)
Theorem more_text_never_scores_higher (before code after l1 l2 : jsstring) :
  score (analyzeCode (before ++ code ++ after) l1) <= score (analyzeCode code l2) /\
  (List.length (issues (analyzeCode code l2))
   <= List.length (issues (analyzeCode (before ++ code ++ after) l1)))%nat.
Proof.
  rewrite !analyzeCode_score_unclamped, !run_rules_score, !analyzeCode_issues,
    !issues_of_rules, !length_app.
  pose proof (includes_extend before code after (js "SELECT")) as H1.
  pose proof (includes_extend before code after (js "+")) as H2.
  pose proof (includes_extend before code after (js "eval(")) as H3.
  pose proof (includes_extend before code after (js "console.log")) as H4.
  destruct (includes code (js "SELECT"));
    [rewrite (H1 eq_refl) | destruct (includes (before ++ code ++ after) (js "SELECT"))];
    (destruct (includes code (js "+"));
     [rewrite (H2 eq_refl) | destruct (includes (before ++ code ++ after) (js "+"))]);
    (destruct (includes code (js "eval("));
     [rewrite (H3 eq_refl) | destruct (includes (before ++ code ++ after) (js "eval("))]);
    (destruct (includes code (js "console.log"));
     [rewrite (H4 eq_refl)
     | destruct (includes (before ++ code ++ after) (js "console.log"))]);
    cbn [andb List.length Nat.add]; lia.
Qed.

(** X15: the score and the number of issues.  There are at most three
    issues; the score is 85 exactly when there is none, and with [n]
    issues it lies between [85 - 25 n] and [85 - 5 n]. *)
Theorem score_and_issue_count (code language : jsstring) :
  let r := analyzeCode code language in
  let n := Z.of_nat (List.length (issues r)) in
  n <= 3 /\
  (score r = 85 <-> issues r = []) /\
  85 - 25 * n <= score r <= 85 - 5 * n.
Proof.
  cbv zeta.
  rewrite analyzeCode_score_unclamped, run_rules_score, analyzeCode_issues, issues_of_rules.
  destruct (includes code (js "SELECT") && includes code (js "+"));
    destruct (includes code (js "eval("));
    destruct (includes code (js "console.log"));
    cbn [app List.length]; (split; [lia|]); (split; [|lia]);
    split; intros H; try discriminate; try lia; reflexivity.
Qed.

(** X16: the metrics are tied to the score.  Security is Poor exactly
    when the score is at most 65; maintainability is Good exactly when
    security is Good, and Poor exactly when the score is at most 40. *)
Theorem metrics_follow_score (code language : jsstring) :
  let r := analyzeCode code language in
  (security (metrics r) = Poor <-> score r <= 65) /\
  (maintainability (metrics r) = Good <-> security (metrics r) = Good) /\
  (maintainability (metrics r) = Poor <-> score r <= 40).
Proof.
  cbv zeta.
  rewrite analyzeCode_score_unclamped, run_rules_score, analyzeCode_metrics,
    issues_of_rules, run_rules_score.
  destruct (includes code (js "SELECT") && includes code (js "+"));
    destruct (includes code (js "eval("));
    destruct (includes code (js "console.log"));
    cbn; repeat split; intros H; try discriminate; try lia; reflexivity.
Qed.

Lemma no_line_feed_in (sub : jsstring) :
  forallb (fun c => negb (N.eqb c NL)) sub = true -> ~ In NL sub.
Proof.
  intros H Hin. rewrite forallb_forall in H. specialize (H NL Hin).
  rewrite N.eqb_refl in H. discriminate.
Qed.

(** X17: where an issue can point.  Every issue's line lies between 0 and
    the number of lines of the text; an issue of the [eval] rule or of the
    [console.log] rule never has line 0, so the sentinel 0 can only come
    from the SQL rule. *)
Theorem issue_lines_in_range (code language : jsstring) (i : Issue) :
  In i (issues (analyzeCode code language)) ->
  0 <= line i <= Z.of_nat (List.length (split code NL)) /\
  (line i = 0 -> message i = js "SQL injection vulnerability detected").
Proof.
  rewrite analyzeCode_issues, issues_of_rules, !in_app_iff.
  intros [H | [H | H]].
  - destruct (includes code (js "SELECT") && includes code (js "+")); [|contradiction].
    destruct H as [<- | []]. cbn [line message].
    pose proof (findIndex_range
                  (fun l => includes l (js "SELECT") && includes l (js "+"))
                  (split code NL)).
    split; [lia | reflexivity].
  - destruct (includes code (js "eval(")) eqn:E; [|contradiction].
    destruct H as [<- | []]. cbn [line message].
    pose proof (findIndex_range (fun l => includes l (js "eval")) (split code NL)).
    destruct (findIndex_found (fun l => includes l (js "eval")) (split code NL))
      as (before & _ & _ & _ & _ & _ & F).
    { apply includes_some_line; [apply eval_paren_has_eval; exact E|].
      apply no_line_feed_in. reflexivity. }
    split; [lia | intros Z0; lia].
  - destruct (includes code (js "console.log")) eqn:E; [|contradiction].
    destruct H as [<- | []]. cbn [line message].
    pose proof (findIndex_range (fun l => includes l (js "console.log")) (split code NL)).
    destruct (findIndex_found (fun l => includes l (js "console.log")) (split code NL))
      as (before & _ & _ & _ & _ & _ & F).
    { apply includes_some_line; [exact E|]. apply no_line_feed_in. reflexivity. }
    split; [lia | intros Z0; lia].
Qed.

(** The theorem on the scenario's text and its one issue. *)
Lemma issue_lines_in_range_witness :
  Forall (fun i => 0 <= line i <= 1) (issues (analyzeCode sql_example (js "javascript"))).
Proof.
  apply Forall_forall. intros i Hi.
  exact (proj1 (issue_lines_in_range sql_example (js "javascript") i Hi)).
Defined.

(** X18: the line of the [console.log] issue.  When the text contains
    [console.log], the warning is attributed to the first line that
    contains it, counted from 1. *)
Theorem console_issue_line (code language : jsstring) :
  includes code (js "console.log") = true ->
  exists i before l after,
    In i (issues (analyzeCode code language)) /\
    severity i = warning /\
    split code NL = before ++ l :: after /\
    line i = Z.of_nat (List.length before) + 1 /\
    includes l (js "console.log") = true /\
    (forall l', In l' before -> includes l' (js "console.log") = false).
Proof.
  intros E.
  destruct (findIndex_found (fun l => includes l (js "console.log")) (split code NL))
    as (before & l & after & Hs & Hb & Hl & F).
  { apply includes_some_line; [exact E|]. apply no_line_feed_in. reflexivity. }
  eexists _, before, l, after.
  rewrite analyzeCode_issues, issues_of_rules, E, !in_app_iff.
  split; [right; right; left; reflexivity|].
  cbn [severity line]. rewrite F. auto.
Qed.

(** The theorem on a text whose second line logs. *)
Lemma console_issue_line_witness :
  exists i before l after,
    In i (issues (analyzeCode (js "let x = 1;" ++ [NL] ++ js "console.log(x);")
                    (js "javascript"))) /\
    severity i = warning /\
    split (js "let x = 1;" ++ [NL] ++ js "console.log(x);") NL = before ++ l :: after /\
    line i = Z.of_nat (List.length before) + 1 /\
    includes l (js "console.log") = true /\
    (forall l', In l' before -> includes l' (js "console.log") = false).
Proof.
  apply (console_issue_line (js "let x = 1;" ++ [NL] ++ js "console.log(x);")
           (js "javascript")).
  reflexivity.
Defined.

(** X19: the line of the SQL issue.  When the text contains [SELECT] and
    [+], the error is attributed to the first line that contains both,
    counted from 1, and to line 0 when they never share a line. *)
Theorem sql_issue_line (code language : jsstring) :
  includes code (js "SELECT") = true ->
  includes code (js "+") = true ->
  exists i,
    In i (issues (analyzeCode code language)) /\
    message i = js "SQL injection vulnerability detected" /\
    ((line i = 0 /\
      forall l, In l (split code NL) ->
                (includes l (js "SELECT") && includes l (js "+")) = false)
     \/ (exists before l after,
           split code NL = before ++ l :: after /\
           line i = Z.of_nat (List.length before) + 1 /\
           (includes l (js "SELECT") && includes l (js "+")) = true /\
           forall l', In l' before ->
                      (includes l' (js "SELECT") && includes l' (js "+")) = false)).
Proof.
  intros E1 E2. eexists.
  rewrite analyzeCode_issues, issues_of_rules, E1, E2, !in_app_iff.
  split; [left; left; reflexivity|]. cbn [message line andb].
  split; [reflexivity|].
  set (p := fun l => includes l (js "SELECT") && includes l (js "+")).
  destruct (findIndex p (split code NL) =? -1) eqn:Em.
  - apply Z.eqb_eq in Em. left. split; [lia|]. apply (findIndex_missing p). exact Em.
  - apply Z.eqb_neq in Em. right.
    assert (Hex : exists x, In x (split code NL) /\ p x = true).
    { clear -Em. unfold findIndex in Em. revert Em. generalize 0.
      induction (split code NL) as [|x l IH]; simpl; intros z Em; [congruence|].
      destruct (p x) eqn:Ex; [exists x; auto|].
      destruct (IH _ Em) as (y & Hy & Py). exists y. auto. }
    destruct (findIndex_found p (split code NL) Hex)
      as (before & l & after & Hs & Hb & Hl & F).
    exists before, l, after. rewrite F. auto.
Qed.

(** The theorem on a text with [SELECT] on its first line and [+] on its
    second: the issue has line 0. *)
Lemma sql_issue_line_witness :
  exists i,
    In i (issues (analyzeCode (js "SELECT 1;" ++ [NL] ++ js "a + b") (js "sql"))) /\
    message i = js "SQL injection vulnerability detected" /\
    line i = 0.
Proof.
  destruct (sql_issue_line (js "SELECT 1;" ++ [NL] ++ js "a + b") (js "sql"))
    as (i & Hi & Hm & H); try reflexivity.
  exists i. split; [exact Hi|]. split; [exact Hm|].
  destruct H as [[H0 _] | (before & l & after & Hs & Hl & Hp & _)]; [exact H0|].
  exfalso.
  assert (Hin : In l (split (js "SELECT 1;" ++ [NL] ++ js "a + b") NL))
    by (rewrite Hs; apply in_elt).
  vm_compute in Hin. destruct Hin as [<- | [<- | []]]; vm_compute in Hp; discriminate.
Defined.

(** X23: the line of the [eval] issue.  When the text contains [eval(],
    the error is attributed to the first line that contains [eval], with
    or without the parenthesis; no earlier line calls [eval]. *)
Theorem eval_issue_line (code language : jsstring) :
  includes code (js "eval(") = true ->
  exists i before l after,
    In i (issues (analyzeCode code language)) /\
    message i = js "Use of eval() function is dangerous" /\
    split code NL = before ++ l :: after /\
    line i = Z.of_nat (List.length before) + 1 /\
    includes l (js "eval") = true /\
    (forall l', In l' before ->
                includes l' (js "eval") = false /\ includes l' (js "eval(") = false).
Proof.
  intros E.
  destruct (findIndex_found (fun l => includes l (js "eval")) (split code NL))
    as (before & l & after & Hs & Hb & Hl & F).
  { apply includes_some_line; [apply eval_paren_has_eval; exact E|].
    apply no_line_feed_in. reflexivity. }
  eexists _, before, l, after.
  rewrite analyzeCode_issues, issues_of_rules, E, !in_app_iff.
  split; [right; left; left; reflexivity|].
  cbn [message line]. rewrite F.
  repeat split; try assumption; try reflexivity.
  - apply Hb. assumption.
  - destruct (includes l' (js "eval(")) eqn:El; [|reflexivity].
    apply eval_paren_has_eval in El. rewrite (Hb l') in El by assumption. discriminate.
Qed.

(** The theorem on [eval_example]. *)
Lemma eval_issue_line_witness :
  exists i before l after,
    In i (issues (analyzeCode eval_example (js "javascript"))) /\
    message i = js "Use of eval() function is dangerous" /\
    split eval_example NL = before ++ l :: after /\
    line i = Z.of_nat (List.length before) + 1 /\
    includes l (js "eval") = true /\
    (forall l', In l' before ->
                includes l' (js "eval") = false /\ includes l' (js "eval(") = false).
Proof.
  apply (eval_issue_line eval_example (js "javascript")). reflexivity.
Defined.

End MockCoverage.

(* ================================================================== *)
(** ** The client over the route, and the score display *)
(* ================================================================== *)

Section ClientAndDisplay.
Import Route.

(** The handler succeeds with status 200 after one upstream call, or
    fails with status 400 or 500. *)
Lemma POST_status_cases (P : Platform) (W : World) (request_body : jsstring) :
  (exists j, POST P W request_body
             = (fst (POST P W request_body), {| payload := j; status := 200 |})
             /\ fetch_count (fst (POST P W request_body)) = 1%nat)
  \/ status (snd (POST P W request_body)) = 400
  \/ status (snd (POST P W request_body)) = 500.
Proof.
  destruct (ask_upstream_cases P W request_body)
    as [(e & E) | [[E _] | [E | [(req & e & E) | [(req & resp & E) | (req & v & E)]]]]].
  - rewrite (POST_thrown _ _ _ _ _ E). auto.
  - rewrite (POST_early _ _ _ _ _ E). auto.
  - rewrite (POST_early _ _ _ _ _ E). auto.
  - rewrite (POST_thrown _ _ _ _ _ E). auto.
  - rewrite (POST_early _ _ _ _ _ E). auto.
  - rewrite (POST_after_upstream _ _ _ _ _ E).
    destruct (adapt_reply_cases P v) as [(e & ->) | [-> | [-> | (j & ->)]]]; auto.
    left. exists j. split; reflexivity.
Qed.

(** X20: the client over the route.  When [analyzeCode] of the first
    variant talks to the [POST] handler, it resolves only with what
    [JSON.parse] reads from a status-200 analysis, obtained with exactly
    one upstream call; every other answer of the handler, whatever its
    status and message, reaches the caller as the one error [Analysis
    failed], logged once. *)
Theorem client_over_route
  (P : Platform) (W : World) (code : jsstring) (language : option jsstring) :
  let lang := match language with Some l => l | None => js "javascript" end in
  let req := Client.analyze_request P code lang in
  let answer := POST P W (body req) in
  let outcome := Client.analyzeCode P (Client.served P W) code language in
  (forall v, snd outcome = inr v ->
     exists j, snd answer = {| payload := j; status := 200 |} /\
               JSON_parse P (JSON_stringify P j) = Some v /\
               fetch_count (fst answer) = 1%nat) /\
  (status (snd answer) <> 200 ->
     outcome = ([Client.Fetched req;
                 Client.ConsoleError (js "Analysis error:")
                   (Client.Error (js "Analysis failed"))],
                inl (Client.Error (js "Analysis failed")))).
Proof.
  cbv zeta. unfold Client.analyzeCode, Client.served.
  set (lang := match language with Some l => l | None => js "javascript" end).
  set (req := Client.analyze_request P code lang).
  cbn [ok text].
  destruct (POST_status_cases P W (body req)) as [(j & E & Hc) | [E | E]].
  - rewrite E in *. cbn [snd status payload] in *. split.
    + cbn [Z.leb Z.compare Pos.compare Pos.compare_cont andb negb].
      intros v Hv. exists j.
      destruct (JSON_parse P (JSON_stringify P j)) as [w|]; [|discriminate].
      injection Hv as ->. auto.
    + intros H. contradiction.
  - rewrite E. split; [intros v Hv; discriminate | reflexivity].
  - rewrite E. split; [intros v Hv; discriminate | reflexivity].
Qed.

(** The theorem for an empty [code]: the handler answers 400, and the
    client rejects. *)
Lemma client_over_route_witness :
  Client.analyzeCode RefPlatform.platform
    (Client.served RefPlatform.platform (Examples.world_replying Examples.short_reply))
    [] None
  = ([Client.Fetched (Client.analyze_request RefPlatform.platform [] (js "javascript"));
      Client.ConsoleError (js "Analysis error:") (Client.Error (js "Analysis failed"))],
     inl (Client.Error (js "Analysis failed"))).
Proof.
  apply (client_over_route RefPlatform.platform
           (Examples.world_replying Examples.short_reply) [] None).
  vm_compute. discriminate.
Defined.

(** X21: the gauge and the figure beside it agree.  For every score, the
    label of the gauge, the colour of its ring and the colour class of the
    printed percentage fall in the same one of four bands. *)
Theorem score_display_agrees (score : float) :
  (Display.getLabel score = js "Excellent" /\
   Display.getColor score = js "#10b981" /\
   Display.getScoreColor score = js "text-emerald-400")
  \/ (Display.getLabel score = js "Good" /\
      Display.getColor score = js "#eab308" /\
      Display.getScoreColor score = js "text-yellow-400")
  \/ (Display.getLabel score = js "Fair" /\
      Display.getColor score = js "#f97316" /\
      Display.getScoreColor score = js "text-orange-400")
  \/ (Display.getLabel score = js "Poor" /\
      Display.getColor score = js "#ef4444" /\
      Display.getScoreColor score = js "text-red-400").
Proof.
  unfold Display.getLabel, Display.getColor, Display.getScoreColor.
  destruct (PrimFloat.leb 90 score); [left; auto|].
  destruct (PrimFloat.leb 75 score); [right; left; auto|].
  destruct (PrimFloat.leb 60 score); [right; right; left; auto | right; right; right; auto].
Qed.

(** X22: the badges add up.  The counts of errors, warnings and infos
    shown in the issue summary sum to the number of issues, and all three
    are zero exactly when the list is empty. *)
Theorem severity_counts_add_up (issues : list Display.Issue) :
  (Display.count Mock.error issues + Display.count Mock.warning issues
   + Display.count Mock.info issues = List.length issues)%nat /\
  (issues = [] <->
   Display.count Mock.error issues = 0%nat /\
   Display.count Mock.warning issues = 0%nat /\
   Display.count Mock.info issues = 0%nat).
Proof.
  assert (Hsum : (Display.count Mock.error issues + Display.count Mock.warning issues
                  + Display.count Mock.info issues = List.length issues)%nat).
  { unfold Display.count. induction issues as [|i issues IH]; [reflexivity|].
    destruct i as [? ? [] ? ?]; cbn; lia. }
  split; [exact Hsum|]. split.
  - intros ->. repeat split; reflexivity.
  - intros (H1 & H2 & H3). rewrite H1, H2, H3 in Hsum.
    destruct issues; [reflexivity | discriminate].
Qed.

End ClientAndDisplay.
